(** * Plant-Disease-Identification-Model: the request pipeline of [main.py]

    A shallow embedding of the FastAPI service of [src/main.py] and the
    properties its specification states about it.

    The service is glue around external collaborators (object storage,
    Firestore, Keras models, the generative-text API).  Their behaviour
    is not part of the repository, so it is a parameter of the model: a
    record [env] of oracles.  What the handlers themselves do (control
    flow, exception handling, the order of the calls and the values
    that are passed along) is translated from the source, in a
    state-and-exception monad over the state of the outside world. *)

From Stdlib Require Import ZArith QArith Lia.
From stdpp Require Import gmap strings list fin_maps pretty.

Local Open Scope string_scope.

(** ** Python values and exceptions *)

Abbreviation bytes := (list Byte.byte).

(** Values stored in a Firestore document or returned as JSON.  Floats
    are idealised as rationals: the service divides channel bytes by
    255, and copies and compares the outputs of a model. *)
Inductive value :=
| VNull
| VStr (s : string)
| VFloat (q : Q).

(** A Python [dict] with string keys: the [result] dictionary of
    [predict], and a Firestore document. *)
Abbreviation doc := (gmap string value).

(** Every exception of the program is an instance of [Exception].
    [HTTPException] is the one FastAPI turns into a response with the
    given status; [PyError cls msg] is any other exception, with its
    class name and [str(e)]. *)
Inductive exn :=
| HTTPException (status_code : Z) (detail : string)
| PyError (cls : string) (msg : string).

(** ** The models and their inputs *)

(** The three module-level variables holding a loaded classifier
    (lines 29-31). *)
Inductive model_name := mango_model | tomato_model | chili_model.

(** A decoded RGB image: rows of pixels of channel bytes. *)
Abbreviation image := (list (list (list Z))).
(** A float array of rank 3, and a batch of them (rank 4). *)
Abbreviation tensor3 := (list (list (list Q))).
Abbreviation tensor4 := (list tensor3).

(** The response object of [generate_content]: reading its [text]
    property raises when the reply holds no text part. *)
Record genai_response := GenaiResponse { text : string + string }.

Record UploadFile := { filename : string; file : bytes }.

(** ** The outside world *)

(** What the service did to its collaborators, in order. *)
Inductive event :=
| EvUpload (name : string) (data : bytes)
| EvFetch (url : string)
| EvInfer (m : model_name) (batch : tensor4)
| EvSet (id : string) (d : doc)
| EvUpdate (id : string) (fields : doc)
| EvDelete (id : string)
| EvGenerate (prompt : string)
| EvLog (msg : string).

Record world := World {
  bucket : gmap string bytes;        (* objects of BUCKET_NAME *)
  predictions : gmap string doc;     (* db.collection('predictions') *)
  uuid_calls : nat;                  (* number of uuid.uuid4() calls so far *)
  trace : list event                 (* calls made so far, oldest first *)
}.

(** The behaviour of the collaborators.  [None] in an [_err] field
    means that the call succeeds, [Some msg] that it raises. *)
Record env := Env {
  uuid4_at : nat -> string;
  upload_err : string -> bytes -> option string;
  public_url : string -> string;
  requests_get : gmap string bytes -> string -> string + bytes;
  load_img : bytes -> nat * nat -> string + image;
  forward : model_name -> tensor3 -> string + list Q;
  strftime_now : string;
  set_err : string -> option string;
  update_err : string -> option string;
  stream_err : string -> option string;
  delete_err : string -> option string;
  generate_content : string -> string + option genai_response;
  str_http : Z -> string -> string   (* str(e) of an HTTPException *)
}.

(** ** The monad: state of the world, and exceptions *)

Definition M (A : Type) : Type := world -> (exn + A) * world.

Definition ret {A} (a : A) : M A := fun w => (inr a, w).

Definition bind {A B} (m : M A) (f : A -> M B) : M B :=
  fun w => match m w with
           | (inr a, w') => f a w'
           | (inl e, w') => (inl e, w')
           end.

Definition raise {A} (e : exn) : M A := fun w => (inl e, w).

(** [try: body except Exception as e: handler e].  The state changes of
    the body stay: nothing is rolled back. *)
Definition try_except {A} (body : M A) (handler : exn -> M A) : M A :=
  fun w => match body w with
           | (inl e, w') => handler e w'
           | (inr a, w') => (inr a, w')
           end.

Definition gets {A} (f : world -> A) : M A := fun w => (inr (f w), w).

Definition modify (f : world -> world) : M unit := fun w => (inr tt, f w).

Definition set_bucket (b : gmap string bytes) (w : world) : world :=
  World b (predictions w) (uuid_calls w) (trace w).

Definition set_predictions (p : gmap string doc) (w : world) : world :=
  World (bucket w) p (uuid_calls w) (trace w).

Definition set_uuid_calls (n : nat) (w : world) : world :=
  World (bucket w) (predictions w) n (trace w).

Definition add_events (evs : list event) (w : world) : world :=
  World (bucket w) (predictions w) (uuid_calls w) (trace w ++ evs).

Definition emit (ev : event) : M unit := modify (add_events [ev]).

(** The [x ← m; k] and [m;; k] notations of stdpp. *)
#[export] Instance M_ret : MRet M := @ret.
#[export] Instance M_bind : MBind M := fun A B f m => bind m f.

Definition or_raise {A} (cls : string) (r : string + A) : M A :=
  match r with
  | inl msg => raise (PyError cls msg)
  | inr a => ret a
  end.

Definition raise_if (cls : string) (r : option string) : M unit :=
  match r with
  | Some msg => raise (PyError cls msg)
  | None => ret tt
  end.

(** The status of the HTTP response FastAPI sends for the outcome of a
    handler: a returned [JSONResponse] is a 200, an [HTTPException]
    carries its status, any other exception is a 500. *)
Definition status_of {A} (r : exn + A) : Z :=
  match r with
  | inr _ => 200
  | inl (HTTPException s _) => s
  | inl (PyError _ _) => 500
  end.

(** ** Library functions with a fixed meaning *)

(** [l[i]] on a Python list, for an index that is not negative. *)
Definition list_getitem {A} (l : list A) (i : nat) : M A :=
  match l !! i with
  | Some x => ret x
  | None => raise (PyError "IndexError" "list index out of range")
  end.

(** [a[i]] on a numpy array, for an index that is not negative. *)
Definition ndarray_getitem {A} (a : list A) (i : nat) : M A :=
  match a !! i with
  | Some x => ret x
  | None => raise (PyError "IndexError"
              ("index " +:+ pretty i +:+ " is out of bounds for axis 0 with size "
               +:+ pretty (length a)))
  end.

(** [d[k]] on a dict. *)
Definition dict_getitem {V} (d : gmap string V) (k : string) : M V :=
  match d !! k with
  | Some v => ret v
  | None => raise (PyError "KeyError" ("'" +:+ k +:+ "'"))
  end.

(** [k in d]. *)
Definition dict_contains {V} (k : string) (d : gmap string V) : bool :=
  bool_decide (is_Some (d !! k)).

(** [np.argmax] of a flat array: the first index that holds the largest
    entry.  [best] is the largest entry seen so far, at index [bi], and
    [i] the index of the head of [l]. *)
Fixpoint argmax_from (best : Q) (bi i : nat) (l : list Q) : nat :=
  match l with
  | [] => bi
  | x :: l' =>
      if Qle_bool x best then argmax_from best bi (S i) l'
      else argmax_from x i (S i) l'
  end.

Definition argmax (l : list Q) : option nat :=
  match l with
  | [] => None
  | x :: l' => Some (argmax_from x 0 1 l')
  end.

(** [np.argmax(a)] without an axis works on the flattened array. *)
Definition np_argmax (a : list (list Q)) : M nat :=
  match argmax (concat a) with
  | Some k => ret k
  | None => raise (PyError "ValueError" "attempt to get argmax of an empty sequence")
  end.

(** [image.img_to_array]: the channel bytes as floats. *)
Definition img_to_array (img : image) : tensor3 :=
  map (map (map inject_Z)) img.

(** [a / 255.0], element by element. *)
Definition div_255 (a : tensor3) : tensor3 :=
  map (map (map (fun x => x / 255)%Q)) a.

(** [np.expand_dims(a, axis=0)]. *)
Definition expand_dims (a : tensor3) : tensor4 := [a].

(** ** Constants of the module *)

(** [class_names], lines 34-41. *)
Definition class_names : gmap string (list string) :=
  {[ "mango" := ["Anthracnose"; "Bacterial Canker"; "Cutting Weevil"; "Die Back";
                 "Gall Midge"; "Healthy"; "Powdery Mildew"; "Sooty Mould"];
     "tomato" := ["Bacterial_spot"; "Early_blight"; "Late_blight"; "Leaf_Mold";
                  "Septoria_leaf_spot"; "Spider_mites"; "Target_Spot";
                  "Tomato_Yellow_Leaf_Curl_Virus"; "Tomato_mosaic_virus"; "healthy"];
     "chili" := ["Bacterial_spot"; "Healthy"; "Late_blight"; "Leaf_Mold"] ]}.

(** The selection of line 110:
    [mango_model if plant_type == 'mango' else tomato_model]. *)
Definition select_model (plant_type : string) : model_name :=
  if bool_decide (plant_type = "mango") then mango_model else tomato_model.

(** The f-string of line 152. *)
Definition treatment_prompt (disease plant : string) : string :=
  "Langkah-langkah mengatasi/merawat " +:+ plant +:+ " yang terkena penyakit "
  +:+ disease +:+ " dengan penjelasan singkat dan tepat".

(** The text the specification gives for each outcome of the external
    call: the reply's text, ["No suggestion available."] for an empty
    reply, and the error text when the call, or reading the reply's
    text, raises. *)
Definition advice_text (r : string + option genai_response) : string :=
  match r with
  | inl _ => "Error generating treatment suggestion."
  | inr None => "No suggestion available."
  | inr (Some reply) =>
      match text reply with
      | inr t => t
      | inl _ => "Error generating treatment suggestion."
      end
  end.

(** The [result] dictionary of lines 124-132. *)
Definition prediction_result (user_id plant_type disease_name : string)
    (probability : Q) (image_url scanned_data : string) : doc :=
  {[ "user_id" := VStr user_id;
     "plant_type" := VStr plant_type;
     "disease" := VStr disease_name;
     "probability" := VFloat probability;
     "image_url" := VStr image_url;
     "treatment" := VNull;
     "scanned_data" := VStr scanned_data ]}.

(** The test of the [where('user_id', '==', user_id)] query. *)
Definition has_user_id (user_id : string) (d : doc) : bool :=
  match d !! "user_id" with
  | Some (VStr s) => bool_decide (s = user_id)
  | _ => false
  end.

(** The stored documents that the query selects. *)
Definition records_of (user_id : string) (p : gmap string doc) : gmap string doc :=
  filter (fun r => has_user_id user_id r.2 = true) p.

(** The row a handler builds from a streamed document:
    [doc.to_dict()] with [data['id'] = doc.id]. *)
Definition with_id (r : string * doc) : doc := <["id" := VStr r.1]> r.2.

(** ** The service *)

Section Service.
Context (E : env).

Definition str (e : exn) : string :=
  match e with
  | HTTPException s d => str_http E s d
  | PyError _ msg => msg
  end.

Definition logging_error (msg : string) : M unit := emit (EvLog msg).

Definition uuid4 : M string :=
  n ← gets uuid_calls;
  modify (set_uuid_calls (S n));;
  ret (uuid4_at E n).

(** [blob.upload_from_file(file.file)] *)
Definition upload_from_file (name : string) (data : bytes) : M unit :=
  emit (EvUpload name data);;
  raise_if "GoogleCloudError" (upload_err E name data);;
  modify (fun w => set_bucket (<[name := data]> (bucket w)) w).

(** [requests.get(url).content] *)
Definition requests_get_content (url : string) : M bytes :=
  emit (EvFetch url);;
  b ← gets bucket;
  or_raise "RequestException" (requests_get E b url).

(** [model.predict(batch)]: one output row for each sample of the batch. *)
Definition model_predict (m : model_name) (batch : tensor4) : M (list (list Q)) :=
  emit (EvInfer m batch);;
  mapM (fun x => or_raise "InvalidArgumentError" (forward E m x)) batch.

(** [db.collection('predictions').document(id).set(d)] *)
Definition document_set (id : string) (d : doc) : M unit :=
  emit (EvSet id d);;
  raise_if "GoogleAPICallError" (set_err E id);;
  modify (fun w => set_predictions (<[id := d]> (predictions w)) w).

(** [db.collection('predictions').document(id).update(fields)]: the
    given fields are written over those of the stored document, which
    has to exist. *)
Definition document_update (id : string) (fields : doc) : M unit :=
  emit (EvUpdate id fields);;
  raise_if "GoogleAPICallError" (update_err E id);;
  p ← gets predictions;
  match p !! id with
  | Some d => modify (set_predictions (<[id := fields ∪ d]> p))
  | None => raise (PyError "NotFound" ("No document to update: " +:+ id))
  end.

(** [doc.reference.delete()] *)
Definition document_delete (id : string) : M unit :=
  emit (EvDelete id);;
  raise_if "GoogleAPICallError" (delete_err E id);;
  modify (fun w => set_predictions (delete id (predictions w)) w).

(** [db.collection('predictions').where('user_id', '==', user_id).stream()],
    read to its end.  The order of the documents is the one of the
    map; nothing below depends on it. *)
Definition where_user_id_stream (user_id : string) : M (list (string * doc)) :=
  raise_if "GoogleAPICallError" (stream_err E user_id);;
  p ← gets predictions;
  ret (map_to_list (records_of user_id p)).

(** *** [generate_treatment], lines 147-159

    [genai.configure] and the [GenerativeModel] constructor only build
    local objects.  A response object is true in a condition; the
    [else] branch is for [None]. *)
Definition generate_treatment (disease plant user_id : string) : M string :=
  let prompt := treatment_prompt disease plant in
  try_except
    (treatment_suggestion ←
       (emit (EvGenerate prompt);;
        or_raise "GoogleAPIError" (generate_content E prompt));
     match treatment_suggestion with
     | Some r => or_raise "ValueError" (text r)
     | None => ret "No suggestion available."
     end)
    (fun e =>
       logging_error ("Error generating treatment suggestion: " +:+ str e);;
       ret "Error generating treatment suggestion.").

(** *** [predict], lines 89-145 *)
Definition predict (f : UploadFile) (plant_type user_id : string) : M doc :=
  if negb (dict_contains plant_type class_names) then
    raise (HTTPException 400 "Invalid plant type")
  else
    try_except
      (u ← uuid4;
       let blob := u +:+ "_" +:+ filename f in
       upload_from_file blob (file f);;
       let image_url := public_url E blob in
       content ← requests_get_content image_url;
       img ← or_raise "UnidentifiedImageError" (load_img E content (256, 256)%nat);
       let img_array := div_255 (img_to_array img) in
       let img_array := expand_dims img_array in
       let model := select_model plant_type in
       predictions ← model_predict model img_array;
       predicted_class ← np_argmax predictions;
       names ← dict_getitem class_names plant_type;
       disease_name ← list_getitem names predicted_class;
       document_id ← uuid4;
       let scanned_data := strftime_now E in
       row ← ndarray_getitem predictions 0;
       probability ← ndarray_getitem row predicted_class;
       let result :=
         prediction_result user_id plant_type disease_name probability
                           image_url scanned_data in
       document_set document_id result;;
       treatment_text ← generate_treatment disease_name plant_type user_id;
       let result := <["treatment" := VStr treatment_text]> result in
       document_update document_id {[ "treatment" := VStr treatment_text ]};;
       ret result)
      (fun e =>
         logging_error ("Error processing the image: " +:+ str e);;
         raise (HTTPException 500 ("Error processing the image: " +:+ str e))).

(** *** [get_prediction], lines 174-193 *)
Definition get_prediction (user_id : string) : M (list doc) :=
  try_except
    (predictions_ref ← where_user_id_stream user_id;
     let results := foldl (fun results d => (results ++ [with_id d])%list) [] predictions_ref in
     match results with
     | [] => raise (HTTPException 404 "No prediction data found for this user ID.")
     | _ => ret results
     end)
    (fun e =>
       logging_error ("Error fetching predictions: " +:+ str e);;
       raise (HTTPException 500 ("Error fetching predictions: " +:+ str e))).

(** *** [delete_prediction], lines 195-213 *)

(** The loop of lines 202-204 over the streamed documents. *)
Fixpoint delete_loop (docs : list (string * doc)) (deleted_count : nat) : M nat :=
  match docs with
  | [] => ret deleted_count
  | d :: docs' =>
      document_delete d.1;;
      delete_loop docs' (deleted_count + 1)
  end.

Definition delete_prediction (user_id : string) : M doc :=
  try_except
    (predictions_ref ← where_user_id_stream user_id;
     deleted_count ← delete_loop predictions_ref 0;
     if bool_decide (deleted_count = 0%nat) then
       raise (HTTPException 404 "No prediction data found for this user ID.")
     else
       ret {[ "message" :=
                VStr ("Deleted " +:+ pretty deleted_count +:+ " prediction(s) successfully.") ]})
    (fun e =>
       logging_error ("Error deleting predictions: " +:+ str e);;
       raise (HTTPException 500 ("Error deleting predictions: " +:+ str e))).
End Service.

(** ** Predicates of the statements *)




(** [emits_only P m w]: run from [w], [m] only adds events that
    satisfy [P] to the trace, on every path. *)
Definition emits_only {A} (P : event -> Prop) (m : M A) (w : world) : Prop :=
  ∃ evs, trace (m w).2 = (trace w ++ evs)%list ∧ Forall P evs.

(** The events that write to the Firestore collection. *)
Definition is_store_write (ev : event) : bool :=
  match ev with
  | EvSet _ _ | EvUpdate _ _ | EvDelete _ => true
  | _ => false
  end.

(** The events of a request [predict f plant_type _] started in [w]
    in which every inference is the one of lines 105-113: on the model
    selected for [plant_type], and on the batch made of the image that
    was fetched back from the bucket. *)
Definition inference_of (E : env) (f : UploadFile) (plant_type : string) (w : world)
    (ev : event) : Prop :=
  match ev with
  | EvInfer m batch =>
      m = select_model plant_type ∧
      ∃ content img,
        let blob := uuid4_at E (uuid_calls w) +:+ "_" +:+ filename f in
        requests_get E (<[blob := file f]> (bucket w)) (public_url E blob) = inr content ∧
        load_img E content (256, 256)%nat = inr img ∧
        batch = expand_dims (div_255 (img_to_array img))
  | _ => True
  end.

(** ** [get_scanned_data], lines 161-172

    The handler has no [try] block and takes no argument; [err] is the
    behaviour of the store for the unfiltered stream ([None]: it
    works, [Some msg]: it raises). *)

(** [db.collection('predictions').stream()], read to its end. *)
Definition collection_stream (err : option string) : M (list (string * doc)) :=
  raise_if "GoogleAPICallError" err;;
  p ← gets predictions;
  ret (map_to_list p).

Definition get_scanned_data (err : option string) : M (list doc) :=
  predictions ← collection_stream err;
  let results := foldl (fun results d => (results ++ [with_id d])%list) [] predictions in
  ret results.

(** [keeps R m w]: run from [w], [m] leaves a world related to [w] by
    [R], on every path. *)
Definition keeps {A} (R : world -> world -> Prop) (m : M A) (w : world) : Prop :=
  R w (m w).2.

(** From [w] to [w'] no document and no object is removed, and none
    is changed but the document under [id] and the object named
    [blob]. *)
Definition same_but (id blob : string) (w w' : world) : Prop :=
  (∀ id', id' ≠ id -> predictions w' !! id' = predictions w !! id')
  ∧ (∀ name, name ≠ blob -> bucket w' !! name = bucket w !! name)
  ∧ (∀ id', is_Some (predictions w !! id') -> is_Some (predictions w' !! id'))
  ∧ (∀ name, is_Some (bucket w !! name) -> is_Some (bucket w' !! name)).

(** The events in which every prompt sent to the external API is the
    template of line 152 filled with [plant_type] and one of its
    labels. *)
Definition prompt_of_labels (plant_type : string) (ev : event) : Prop :=
  match ev with
  | EvGenerate prompt =>
      ∃ names disease,
        class_names !! plant_type = Some names
        ∧ disease ∈ names
        ∧ prompt = treatment_prompt disease plant_type
  | _ => True
  end.

(** The exception that stops a request for a known plant type, if
    there is one: the exception of the first stage of lines 96-139
    that raises.  The advice of line 136 never raises, the entry of
    line 128 is in range as soon as the arg-max exists, and the update
    finds the document that line 134 wrote. *)
Definition stopped_by (E : env) (f : UploadFile) (plant_type : string) (w : world)
    : option exn :=
  let blob := uuid4_at E (uuid_calls w) +:+ "_" +:+ filename f in
  let id := uuid4_at E (S (uuid_calls w)) in
  match class_names !! plant_type with
  | None => None
  | Some names =>
  match upload_err E blob (file f) with
  | Some msg => Some (PyError "GoogleCloudError" msg)
  | None =>
  match requests_get E (<[blob := file f]> (bucket w)) (public_url E blob) with
  | inl msg => Some (PyError "RequestException" msg)
  | inr content =>
  match load_img E content (256, 256)%nat with
  | inl msg => Some (PyError "UnidentifiedImageError" msg)
  | inr img =>
  match forward E (select_model plant_type) (div_255 (img_to_array img)) with
  | inl msg => Some (PyError "InvalidArgumentError" msg)
  | inr out =>
  match argmax out with
  | None => Some (PyError "ValueError" "attempt to get argmax of an empty sequence")
  | Some k =>
  match names !! k with
  | None => Some (PyError "IndexError" "list index out of range")
  | Some _ =>
  match set_err E id with
  | Some msg => Some (PyError "GoogleAPICallError" msg)
  | None =>
  match update_err E id with
  | Some msg => Some (PyError "GoogleAPICallError" msg)
  | None => None
  end end end end end end end end end.

(** ** Deployments in which a collaborator fails *)

Definition with_upload_err (E : env) (r : string -> bytes -> option string) : env :=
  Env (uuid4_at E) r (public_url E) (requests_get E) (load_img E) (forward E)
      (strftime_now E) (set_err E) (update_err E) (stream_err E) (delete_err E)
      (generate_content E) (str_http E).

Definition with_load_img (E : env) (r : bytes -> nat * nat -> string + image) : env :=
  Env (uuid4_at E) (upload_err E) (public_url E) (requests_get E) r (forward E)
      (strftime_now E) (set_err E) (update_err E) (stream_err E) (delete_err E)
      (generate_content E) (str_http E).

Definition with_update_err (E : env) (r : string -> option string) : env :=
  Env (uuid4_at E) (upload_err E) (public_url E) (requests_get E) (load_img E) (forward E)
      (strftime_now E) (set_err E) r (stream_err E) (delete_err E)
      (generate_content E) (str_http E).

Definition with_generate_content (E : env)
    (r : string -> string + option genai_response) : env :=
  Env (uuid4_at E) (upload_err E) (public_url E) (requests_get E) (load_img E) (forward E)
      (strftime_now E) (set_err E) (update_err E) (stream_err E) (delete_err E)
      r (str_http E).

(** ** A sample deployment

    One behaviour of the collaborators in which every call succeeds,
    used to run the handlers on concrete requests. *)
Module Sample.
Definition url_prefix : string :=
  "https://storage.googleapis.com/plantcare-api-bucket/".

Definition mango_out : list Q := [0.1; 0.1; 0.5; 0.1; 0.05; 0.05; 0.05; 0.05]%Q.
Definition tomato_out : list Q :=
  [0.05; 0.05; 0.05; 0.05; 0.05; 0.05; 0.05; 0.6; 0.03; 0.02]%Q.
Definition chili_out : list Q := [0.1; 0.7; 0.1; 0.1]%Q.

Definition rgb_image (size : nat * nat) : image :=
  replicate size.1 (replicate size.2 [0; 128; 255]%Z).

Definition E0 : env := {|
  uuid4_at n := "uuid-" +:+ pretty n;
  upload_err _ _ := None;
  public_url name := url_prefix +:+ name;
  requests_get b url :=
    match filter (fun r => url_prefix +:+ r.1 = url) (map_to_list b) with
    | r :: _ => inr r.2
    | [] => inl "no such object"
    end;
  load_img _ size := inr (rgb_image size);
  forward m _ :=
    match m with
    | mango_model => inr mango_out
    | tomato_model => inr tomato_out
    | chili_model => inr chili_out
    end;
  strftime_now := "2024:12:01";
  set_err _ := None;
  update_err _ := None;
  stream_err _ := None;
  delete_err _ := None;
  generate_content p := inr (Some (GenaiResponse (inr ("Saran: " +:+ p))));
  str_http s d := pretty s +:+ ": " +:+ d
|}.

Definition w0 : world := World ∅ ∅ 0 [].

Definition leaf : UploadFile :=
  {| filename := "leaf.jpg"; file := [Byte.x01; Byte.x02] |}.

(** The batch every inference of the sample gets. *)
Definition sample_batch : tensor4 :=
  expand_dims (div_255 (img_to_array (rgb_image (256, 256)%nat))).

(** The first request: a mango leaf of user ["u1"]. *)
Definition mango_response : doc :=
  <["treatment" := VStr ("Saran: " +:+ treatment_prompt "Cutting Weevil" "mango")]>
    (prediction_result "u1" "mango" "Cutting Weevil" 0.5
                       (url_prefix +:+ "uuid-0_leaf.jpg") "2024:12:01").

Definition w1 : world :=
  World {[ "uuid-0_leaf.jpg" := file leaf ]}
        {[ "uuid-1" := mango_response ]}
        2
        [EvUpload "uuid-0_leaf.jpg" (file leaf);
         EvFetch (url_prefix +:+ "uuid-0_leaf.jpg");
         EvInfer mango_model
                 (expand_dims (div_255 (img_to_array (rgb_image (256, 256)%nat))));
         EvSet "uuid-1"
               (prediction_result "u1" "mango" "Cutting Weevil" 0.5
                                  (url_prefix +:+ "uuid-0_leaf.jpg") "2024:12:01");
         EvGenerate (treatment_prompt "Cutting Weevil" "mango");
         EvUpdate "uuid-1"
                  {[ "treatment" :=
                       VStr ("Saran: " +:+ treatment_prompt "Cutting Weevil" "mango") ]}].

(** The world after two more requests, of users ["u1"] and ["u2"]. *)
Definition w3 : world :=
  (predict E0 leaf "tomato" "u2" (predict E0 leaf "tomato" "u1" w1).2).2.
End Sample.

(** * Properties *)

(** ** Running the monad *)

Lemma run_bind {A B} (m : M A) (f : A → M B) (w : world) :
  (m ≫= f) w =
  match m w with
  | (inr a, w1) => f a w1
  | (inl e, w1) => (inl e, w1)
  end.
Proof. reflexivity. Qed.

Lemma bind_ok {A B} (m : M A) (f : A → M B) (w w' : world) (b : B) :
  (m ≫= f) w = (inr b, w') →
  ∃ a w1, m w = (inr a, w1) ∧ f a w1 = (inr b, w').
Proof.
  rewrite run_bind. destruct (m w) as [[e|a] w1]; [discriminate|]. eauto.
Qed.

Lemma raise_if_ok cls r (w w' : world) u :
  raise_if cls r w = (inr u, w') → r = None ∧ w' = w.
Proof. destruct r; simpl; [discriminate|]. intros [= _ ->]. done. Qed.

Lemma or_raise_ok {A} cls (r : string + A) (w w' : world) a :
  or_raise cls r w = (inr a, w') → r = inr a ∧ w' = w.
Proof. destruct r; simpl; [discriminate|]. intros [= -> ->]. done. Qed.

Ltac run_binds := repeat (first [rewrite run_bind | progress simpl]).

Lemma add_events_add_events evs1 evs2 w :
  add_events evs2 (add_events evs1 w) = add_events (evs1 ++ evs2) w.
Proof. unfold add_events. simpl. by rewrite <- (assoc_L (++)). Qed.

(** What each operation of the service returns and does to the world,
    by the answer of its oracle. *)
Section ServiceRuns.
Context (E : env).

Lemma uuid4_run w :
  uuid4 E w = (inr (uuid4_at E (uuid_calls w)), set_uuid_calls (S (uuid_calls w)) w).
Proof. reflexivity. Qed.

Lemma upload_from_file_run name data w :
  upload_from_file E name data w =
  match upload_err E name data with
  | None => (inr tt, set_bucket (<[name := data]> (bucket w)) (add_events [EvUpload name data] w))
  | Some msg => (inl (PyError "GoogleCloudError" msg), add_events [EvUpload name data] w)
  end.
Proof. unfold upload_from_file. run_binds. destruct (upload_err E name data); reflexivity. Qed.

Lemma requests_get_content_run url w :
  requests_get_content E url w =
  match requests_get E (bucket w) url with
  | inr c => (inr c, add_events [EvFetch url] w)
  | inl msg => (inl (PyError "RequestException" msg), add_events [EvFetch url] w)
  end.
Proof.
  unfold requests_get_content. run_binds.
  destruct (requests_get E (bucket w) url); reflexivity.
Qed.

Lemma model_predict_run m x w :
  model_predict E m (expand_dims x) w =
  match forward E m x with
  | inr out => (inr [out], add_events [EvInfer m [x]] w)
  | inl msg => (inl (PyError "InvalidArgumentError" msg), add_events [EvInfer m [x]] w)
  end.
Proof.
  unfold model_predict, expand_dims. run_binds. destruct (forward E m x); reflexivity.
Qed.

Lemma np_argmax_run out w :
  np_argmax [out] w =
  match argmax out with
  | Some k => (inr k, w)
  | None => (inl (PyError "ValueError" "attempt to get argmax of an empty sequence"), w)
  end.
Proof. unfold np_argmax. simpl. rewrite app_nil_r. destruct (argmax out); reflexivity. Qed.

Lemma document_set_run id d w :
  document_set E id d w =
  match set_err E id with
  | None => (inr tt, set_predictions (<[id := d]> (predictions w)) (add_events [EvSet id d] w))
  | Some msg => (inl (PyError "GoogleAPICallError" msg), add_events [EvSet id d] w)
  end.
Proof.
  unfold document_set. run_binds.
  destruct (set_err E id); reflexivity.
Qed.

Lemma document_update_run id fields w :
  document_update E id fields w =
  match update_err E id with
  | Some msg => (inl (PyError "GoogleAPICallError" msg), add_events [EvUpdate id fields] w)
  | None =>
      match predictions w !! id with
      | Some d => (inr tt, set_predictions (<[id := fields ∪ d]> (predictions w))
                                           (add_events [EvUpdate id fields] w))
      | None => (inl (PyError "NotFound" ("No document to update: " +:+ id)),
                 add_events [EvUpdate id fields] w)
      end
  end.
Proof.
  unfold document_update. run_binds.
  destruct (update_err E id); [reflexivity|]. simpl. run_binds.
  destruct (predictions w !! id); reflexivity.
Qed.

Lemma document_delete_run id w :
  document_delete E id w =
  match delete_err E id with
  | None => (inr tt, set_predictions (delete id (predictions w)) (add_events [EvDelete id] w))
  | Some msg => (inl (PyError "GoogleAPICallError" msg), add_events [EvDelete id] w)
  end.
Proof.
  unfold document_delete. run_binds.
  destruct (delete_err E id); reflexivity.
Qed.

Lemma where_user_id_stream_run user_id w :
  where_user_id_stream E user_id w =
  match stream_err E user_id with
  | None => (inr (map_to_list (records_of user_id (predictions w))), w)
  | Some msg => (inl (PyError "GoogleAPICallError" msg), w)
  end.
Proof.
  unfold where_user_id_stream. run_binds.
  destruct (stream_err E user_id); reflexivity.
Qed.

(** [generate_treatment] always returns a text, after one call to the
    external API and at most a line of log. *)
Lemma generate_treatment_run disease plant user_id w :
  ∃ logs,
    generate_treatment E disease plant user_id w =
    (inr (advice_text (generate_content E (treatment_prompt disease plant))),
     add_events (EvGenerate (treatment_prompt disease plant) :: logs) w)
    ∧ ∀ ev, ev ∈ logs → ∃ msg, ev = EvLog msg.
Proof.
  unfold generate_treatment, try_except, logging_error. run_binds.
  destruct (generate_content E (treatment_prompt disease plant)) as [msg|[r|]]; run_binds.
  - rewrite add_events_add_events. eexists [_]. split; [reflexivity|].
    intros ev ->%list_elem_of_singleton. eauto.
  - destruct r as [[msg|t]]; run_binds.
    + rewrite add_events_add_events. eexists [_]. split; [reflexivity|].
      intros ev ->%list_elem_of_singleton. eauto.
    + exists []. split; [reflexivity|]. intros ev ?%elem_of_nil. done.
  - exists []. split; [reflexivity|]. intros ev ?%elem_of_nil. done.
Qed.

(** The [except] clause of the three handlers. *)
Lemma handler_500 {A} prefix (e : exn) w :
  (logging_error (prefix +:+ str E e);;
   raise (A := A) (HTTPException 500 (prefix +:+ str E e))) w =
  (inl (HTTPException 500 (prefix +:+ str E e)),
   add_events [EvLog (prefix +:+ str E e)] w).
Proof. reflexivity. Qed.

(** A request that succeeds: every stage went through, with the values
    passed from one to the next, and the world it leaves. *)
Lemma predict_ok f pt uid w res w' :
  predict E f pt uid w = (inr res, w') →
  ∃ names content img out k disease p logs,
    let blob := uuid4_at E (uuid_calls w) +:+ "_" +:+ filename f in
    let url := public_url E blob in
    let id := uuid4_at E (S (uuid_calls w)) in
    let x := div_255 (img_to_array img) in
    let advice := advice_text (generate_content E (treatment_prompt disease pt)) in
    let rec0 := prediction_result uid pt disease p url (strftime_now E) in
    class_names !! pt = Some names
    ∧ upload_err E blob (file f) = None
    ∧ requests_get E (<[blob := file f]> (bucket w)) url = inr content
    ∧ load_img E content (256, 256)%nat = inr img
    ∧ forward E (select_model pt) x = inr out
    ∧ argmax out = Some k
    ∧ names !! k = Some disease
    ∧ out !! k = Some p
    ∧ set_err E id = None
    ∧ update_err E id = None
    ∧ res = <["treatment" := VStr advice]> rec0
    ∧ bucket w' = <[blob := file f]> (bucket w)
    ∧ predictions w' =
        <[id := {["treatment" := VStr advice]} ∪ rec0]> (<[id := rec0]> (predictions w))
    ∧ uuid_calls w' = S (S (uuid_calls w))
    ∧ trace w' =
        (trace w ++ [EvUpload blob (file f); EvFetch url;
                     EvInfer (select_model pt) (expand_dims x); EvSet id rec0;
                     EvGenerate (treatment_prompt disease pt)]
                 ++ logs ++ [EvUpdate id {["treatment" := VStr advice]}])%list
    ∧ ∀ ev, ev ∈ logs → ∃ msg, ev = EvLog msg.
Proof.
  unfold predict, dict_contains. case_bool_decide as Hin; cbn [negb]; [|discriminate].
  destruct Hin as [names Hnames].
  unfold try_except. cbv beta.
  match goal with |- (let (_, _) := ?b w in _) = _ → _ => destruct (b w) as [[e|a] w1] eqn:Hbody end.
  { rewrite handler_500. discriminate. }
  intros [= -> ->].
  apply bind_ok in Hbody as (u & w1 & Hu & Hbody).
  rewrite uuid4_run in Hu. injection Hu as <- <-.
  apply bind_ok in Hbody as ([] & w2 & Hup & Hbody).
  rewrite upload_from_file_run in Hup.
  destruct (upload_err E _ _) eqn:Hupload; [discriminate|]. injection Hup as <-.
  apply bind_ok in Hbody as (content & w3 & Hget & Hbody).
  rewrite requests_get_content_run in Hget. simpl bucket in Hget.
  destruct (requests_get E _ _) as [|content'] eqn:Hfetch; [discriminate|]. injection Hget as <- <-.
  apply bind_ok in Hbody as (img & w4 & Himg & Hbody).
  apply or_raise_ok in Himg as [Himg ->].
  apply bind_ok in Hbody as (preds & w5 & Hpred & Hbody).
  rewrite model_predict_run in Hpred.
  destruct (forward E _ _) as [|out] eqn:Hout; [discriminate|]. injection Hpred as <- <-.
  apply bind_ok in Hbody as (k & w6 & Hk & Hbody).
  rewrite np_argmax_run in Hk.
  destruct (argmax out) as [k'|] eqn:Hargmax; [|discriminate]. injection Hk as <- <-.
  apply bind_ok in Hbody as (names' & w7 & Hn & Hbody).
  unfold dict_getitem in Hn. rewrite Hnames in Hn. injection Hn as <- <-.
  apply bind_ok in Hbody as (disease & w8 & Hd & Hbody).
  unfold list_getitem in Hd.
  destruct (names !! k') as [d|] eqn:Hdisease; [|discriminate]. injection Hd as <- <-.
  apply bind_ok in Hbody as (id & w9 & Hid & Hbody).
  rewrite uuid4_run in Hid. injection Hid as <- <-.
  apply bind_ok in Hbody as (row & w10 & Hrow & Hbody).
  injection Hrow as <- <-.
  apply bind_ok in Hbody as (p & w11 & Hp & Hbody).
  unfold ndarray_getitem in Hp.
  destruct (out !! k') as [p'|] eqn:Hprob; [|discriminate]. injection Hp as <- <-.
  apply bind_ok in Hbody as ([] & w12 & Hset & Hbody).
  rewrite document_set_run in Hset.
  destruct (set_err E _) eqn:Hse; [discriminate|]. injection Hset as <-.
  apply bind_ok in Hbody as (advice & w13 & Hadv & Hbody).
  match type of Hadv with
  | generate_treatment E ?d ?p ?u ?w0 = _ =>
      destruct (generate_treatment_run d p u w0) as (logs & Hrun & Hlogs)
  end.
  rewrite Hrun in Hadv. injection Hadv as <- <-.
  apply bind_ok in Hbody as ([] & w14 & Hupd & Hbody).
  rewrite document_update_run in Hupd.
  destruct (update_err E _) eqn:Hue; [discriminate|].
  simpl in Hupd. rewrite lookup_insert_eq in Hupd. injection Hupd as <-.
  injection Hbody as <- <-.
  exists names, content', img, out, k', d, p', logs. clear Hrun. simpl.
  repeat (split; [done|]). split; [|done].
  rewrite <- !(assoc_L (++)). reflexivity.
Qed.

End ServiceRuns.

(** ** Events a computation adds to the trace *)

Section Emits.
Context (P : event → Prop).

Lemma emits_frame {A} (m : M A) w :
  trace (m w).2 = trace w → emits_only P m w.
Proof. intros H. exists []. by rewrite H, app_nil_r. Qed.

Lemma emits_ret {A} (a : A) w : emits_only P (ret a) w.
Proof. by apply emits_frame. Qed.

Lemma emits_raise {A} e w : emits_only P (raise (A := A) e) w.
Proof. by apply emits_frame. Qed.

Lemma emits_or_raise {A} cls (r : string + A) w : emits_only P (or_raise cls r) w.
Proof. destruct r; by apply emits_frame. Qed.

Lemma emits_emit ev w : P ev → emits_only P (emit ev) w.
Proof. intros H. exists [ev]. split; [done|]. by constructor. Qed.

Lemma emits_bind {A B} (m : M A) (f : A → M B) w :
  emits_only P m w →
  (∀ a w1, m w = (inr a, w1) → emits_only P (f a) w1) →
  emits_only P (m ≫= f) w.
Proof.
  intros (evs1 & H1 & HP1) Hf. unfold emits_only. rewrite run_bind.
  destruct (m w) as [[e|a] w1] eqn:Hm; simpl in H1.
  - exists evs1. done.
  - destruct (Hf a w1 eq_refl) as (evs2 & H2 & HP2).
    exists (evs1 ++ evs2)%list. split.
    + by rewrite H2, H1, (assoc_L (++)).
    + by apply Forall_app.
Qed.

Lemma emits_try_except {A} (body : M A) (handler : exn → M A) w :
  emits_only P body w →
  (∀ e w1, body w = (inl e, w1) → emits_only P (handler e) w1) →
  emits_only P (try_except body handler) w.
Proof.
  intros (evs1 & H1 & HP1) Hh. unfold emits_only, try_except.
  destruct (body w) as [[e|a] w1] eqn:Hm; simpl in H1.
  - destruct (Hh e w1 eq_refl) as (evs2 & H2 & HP2).
    exists (evs1 ++ evs2)%list. split.
    + by rewrite H2, H1, (assoc_L (++)).
    + by apply Forall_app.
  - exists evs1. done.
Qed.

(** An operation that emits [ev] and then, if its oracle lets it,
    changes the rest of the world. *)
Lemma emits_call r (f : world → world) ev cls w :
  P ev → (∀ w1, trace (f w1) = trace w1) →
  emits_only P (emit ev;; raise_if cls r;; modify f) w.
Proof.
  intros Hev Hf. exists [ev]. split; [|by constructor].
  destruct r; run_binds; [done|]. by rewrite Hf.
Qed.
End Emits.

Section ServiceEvents.
Context (E : env) (P : event → Prop).

Lemma emits_uuid4 w : emits_only P (uuid4 E) w.
Proof. by apply emits_frame. Qed.

Lemma emits_upload_from_file name data w :
  P (EvUpload name data) → emits_only P (upload_from_file E name data) w.
Proof. intros H. by apply emits_call. Qed.

Lemma emits_requests_get_content url w :
  P (EvFetch url) → emits_only P (requests_get_content E url) w.
Proof.
  intros H. exists [EvFetch url]. split; [|by constructor].
  rewrite requests_get_content_run. by destruct (requests_get E _ _).
Qed.

Lemma emits_model_predict m x w :
  P (EvInfer m [x]) → emits_only P (model_predict E m (expand_dims x)) w.
Proof.
  intros H. exists [EvInfer m [x]]. split; [|by constructor].
  rewrite model_predict_run. by destruct (forward E _ _).
Qed.

Lemma emits_np_argmax a w : emits_only P (np_argmax a) w.
Proof. apply emits_frame. unfold np_argmax. by destruct (argmax _). Qed.

Lemma emits_dict_getitem {V} (d : gmap string V) k w : emits_only P (dict_getitem d k) w.
Proof. apply emits_frame. unfold dict_getitem. by destruct (d !! k). Qed.

Lemma emits_list_getitem {A} (l : list A) i w : emits_only P (list_getitem l i) w.
Proof. apply emits_frame. unfold list_getitem. by destruct (l !! i). Qed.

Lemma emits_ndarray_getitem {A} (l : list A) i w : emits_only P (ndarray_getitem l i) w.
Proof. apply emits_frame. unfold ndarray_getitem. by destruct (l !! i). Qed.

Lemma emits_document_set id d w :
  P (EvSet id d) → emits_only P (document_set E id d) w.
Proof. intros H. by apply emits_call. Qed.

Lemma emits_document_update id fields w :
  P (EvUpdate id fields) → emits_only P (document_update E id fields) w.
Proof.
  intros H. exists [EvUpdate id fields]. split; [|by constructor].
  rewrite document_update_run.
  destruct (update_err E id); [done|]. by destruct (predictions w !! id).
Qed.

Lemma emits_generate_treatment disease plant user_id w :
  P (EvGenerate (treatment_prompt disease plant)) → (∀ msg, P (EvLog msg)) →
  emits_only P (generate_treatment E disease plant user_id) w.
Proof.
  intros Hgen Hlog.
  destruct (generate_treatment_run E disease plant user_id w) as (logs & Hrun & Hlogs).
  unfold emits_only. rewrite Hrun.
  eexists. split; [reflexivity|]. constructor; [done|].
  apply Forall_forall. intros ev [msg ->]%Hlogs. apply Hlog.
Qed.

Lemma emits_handler_500 {A} prefix e w :
  (∀ msg, P (EvLog msg)) →
  emits_only P (logging_error (prefix +:+ str E e);;
                raise (A := A) (HTTPException 500 (prefix +:+ str E e))) w.
Proof. intros H. exists [EvLog (prefix +:+ str E e)]. split; [done|]. by constructor. Qed.
End ServiceEvents.

(** Every inference that [predict] starts runs the model of line 110
    on the fetched image, decoded at 256 by 256, scaled by 255 and put
    in a batch of one. *)
Lemma predict_events E f pt uid w :
  emits_only (inference_of E f pt w) (predict E f pt uid) w.
Proof.
  unfold predict. destruct (negb _); [apply emits_raise|].
  apply emits_try_except; [|intros; by apply emits_handler_500].
  apply emits_bind; [apply emits_uuid4|]. intros u w1 Hu.
  rewrite uuid4_run in Hu. injection Hu as <- <-.
  apply emits_bind; [by apply emits_upload_from_file|]. intros [] w2 Hup.
  rewrite upload_from_file_run in Hup.
  destruct (upload_err E _ _); [discriminate|]. injection Hup as <-.
  apply emits_bind; [by apply emits_requests_get_content|]. intros content w3 Hget.
  rewrite requests_get_content_run in Hget. simpl bucket in Hget.
  destruct (requests_get E _ _) as [|c] eqn:Hfetch; [discriminate|]. injection Hget as <- <-.
  apply emits_bind; [apply emits_or_raise|]. intros img w4 [Himg ->]%or_raise_ok.
  apply emits_bind.
  { apply emits_model_predict. split; [done|]. exists c, img. done. }
  intros preds w5 _.
  apply emits_bind; [apply emits_np_argmax|]. intros k w6 _.
  apply emits_bind; [apply emits_dict_getitem|]. intros names w7 _.
  apply emits_bind; [apply emits_list_getitem|]. intros disease w8 _.
  apply emits_bind; [apply emits_uuid4|]. intros id w9 _.
  apply emits_bind; [apply emits_ndarray_getitem|]. intros row w10 _.
  apply emits_bind; [apply emits_ndarray_getitem|]. intros p w11 _.
  apply emits_bind; [by apply emits_document_set|]. intros [] w12 _.
  apply emits_bind; [by apply emits_generate_treatment|]. intros advice w13 _.
  apply emits_bind; [by apply emits_document_update|]. intros [] w14 _.
  apply emits_ret.
Qed.

(** ** [np.argmax] *)

Lemma argmax_from_spec (pre l : list Q) (best : Q) (bi : nat) :
  pre !! bi = Some best →
  (∀ j x, pre !! j = Some x → (x <= best)%Q) →
  ∃ p, (pre ++ l)%list !! argmax_from best bi (length pre) l = Some p
       ∧ ∀ j x, (pre ++ l)%list !! j = Some x → (x <= p)%Q.
Proof.
  revert pre best bi. induction l as [|x l IH]; intros pre best bi Hbi Hmax; simpl.
  - exists best. rewrite app_nil_r. done.
  - replace (pre ++ x :: l)%list with ((pre ++ [x]) ++ l)%list
      by (by rewrite <- (assoc_L (++))).
    replace (S (length pre)) with (length (pre ++ [x])%list)
      by (rewrite length_app; simpl; lia).
    destruct (Qle_bool x best) eqn:Hle.
    + apply Qle_bool_iff in Hle. apply IH.
      * rewrite lookup_app_l; [done|]. by eapply lookup_lt_Some.
      * intros j y Hj. apply lookup_app_Some in Hj as [Hj|[_ Hj]]; [by eapply Hmax|].
        apply list_lookup_singleton_Some in Hj as [_ <-]. done.
    + assert (best < x)%Q as Hlt.
      { apply Qnot_le_lt. intros H%Qle_bool_iff. congruence. }
      replace (length pre) with (length pre + 0)%nat at 1 by lia.
      apply IH.
      * replace (length pre + 0)%nat with (length pre) by lia.
        rewrite lookup_app_r, Nat.sub_diag; [done|lia].
      * intros j y Hj. apply lookup_app_Some in Hj as [Hj|[_ Hj]].
        -- apply Qlt_le_weak. eapply Qle_lt_trans; [by eapply Hmax|done].
        -- apply list_lookup_singleton_Some in Hj as [_ <-]. apply Qle_refl.
Qed.

(** The index [np.argmax] returns is in range and holds a largest entry. *)
Lemma argmax_spec (l : list Q) (k : nat) :
  argmax l = Some k →
  ∃ p, l !! k = Some p ∧ ∀ j x, l !! j = Some x → (x <= p)%Q.
Proof.
  destruct l as [|x l]; [discriminate|]. intros [= <-].
  apply (argmax_from_spec [x] l x 0); [done|].
  intros j y Hj. apply list_lookup_singleton_Some in Hj as [_ <-]. apply Qle_refl.
Qed.

(** * The claims *)

Import Sample.

(** C4: for every [plant_type] that is not a key of [class_names],
    [predict] raises the 400 error and leaves the world as it was: no
    object uploaded, no inference run, no document written, no call
    made at all. *)
Theorem predict_unknown_plant_type E f plant_type user_id w :
  class_names !! plant_type = None →
  predict E f plant_type user_id w = (inl (HTTPException 400 "Invalid plant type"), w)
  ∧ status_of (predict E f plant_type user_id w).1 = 400%Z.
Proof.
  intros Hnone. unfold predict, dict_contains.
  rewrite Hnone. rewrite bool_decide_eq_false_2 by (by intros [? ?]). done.
Qed.

Lemma predict_unknown_plant_type_witness :
  class_names !! "rose" = None
  ∧ predict E0 leaf "rose" "u1" w0 = (inl (HTTPException 400 "Invalid plant type"), w0)
  ∧ status_of (predict E0 leaf "rose" "u1" w0).1 = 400%Z.
Proof.
  split; [reflexivity|].
  apply (predict_unknown_plant_type E0 leaf "rose" "u1" w0). reflexivity.
Defined.

(** C5, as amended: [generate_treatment] never raises.  It returns the
    text of the reply of the external model whenever that text can be
    read, the empty text included; ["No suggestion available."] only
    when the call returns a value that is false in the test of line
    156 ([None]); and ["Error generating treatment suggestion."] when
    the call raises or when reading the text of its reply raises, as
    for a reply that holds no text part. *)
Theorem generate_treatment_never_raises E disease plant user_id w :
  (generate_treatment E disease plant user_id w).1 =
  inr match generate_content E (treatment_prompt disease plant) with
      | inr (Some reply) =>
          match text reply with
          | inr t => t
          | inl _ => "Error generating treatment suggestion."
          end
      | inr None => "No suggestion available."
      | inl _ => "Error generating treatment suggestion."
      end.
Proof.
  destruct (generate_treatment_run E disease plant user_id w) as (logs & -> & _).
  simpl. unfold advice_text.
  by destruct (generate_content E _) as [|[|]].
Qed.

(** C5 as stated fails: a reply that is empty is not answered with
    ["No suggestion available."].  A reply whose text is empty is
    returned as the empty text, and a reply with no text part gives
    the error text. *)
Lemma generate_treatment_empty_reply_counterexample :
  (generate_treatment
     (with_generate_content E0 (fun _ => inr (Some (GenaiResponse (inr "")))))
     "Healthy" "mango" "u1" w0).1 = inr ""
  ∧ (generate_treatment
       (with_generate_content E0
          (fun _ => inr (Some (GenaiResponse (inl "no valid Part in the response")))))
       "Healthy" "mango" "u1" w0).1 = inr "Error generating treatment suggestion."
  ∧ ¬ (∀ E disease plant user_id w reply,
         generate_content E (treatment_prompt disease plant) = inr (Some reply) →
         text reply = inr "" ∨ (∃ msg, text reply = inl msg) →
         (generate_treatment E disease plant user_id w).1 = inr "No suggestion available.").
Proof.
  split; [reflexivity|]. split; [reflexivity|].
  intros Hclaim.
  specialize (Hclaim
    (with_generate_content E0 (fun _ => inr (Some (GenaiResponse (inr "")))))
    "Healthy" "mango" "u1" w0 (GenaiResponse (inr "")) eq_refl (or_introl eq_refl)).
  discriminate Hclaim.
Qed.

(** C10: [generate_treatment] does not use its [user_id] argument: two
    calls with the same disease and plant behave the same whatever the
    user, and the one prompt sent to the external API is the template
    filled with the plant and the disease. *)
Theorem generate_treatment_ignores_user_id E disease plant user_id1 user_id2 w :
  generate_treatment E disease plant user_id1 w = generate_treatment E disease plant user_id2 w
  ∧ ∃ logs,
      trace (generate_treatment E disease plant user_id1 w).2 =
        (trace w ++ EvGenerate (treatment_prompt disease plant) :: logs)%list
      ∧ ∀ ev, ev ∈ logs → ∃ msg, ev = EvLog msg.
Proof.
  split; [reflexivity|].
  destruct (generate_treatment_run E disease plant user_id1 w) as (logs & -> & Hlogs).
  by exists logs.
Qed.

(** The inference events among those a request adds to the trace. *)
Lemma predict_inferences E f pt uid w :
  ∃ evs, trace (predict E f pt uid w).2 = (trace w ++ evs)%list
         ∧ ∀ m batch, EvInfer m batch ∈ evs → inference_of E f pt w (EvInfer m batch).
Proof.
  destruct (predict_events E f pt uid w) as (evs & Htrace & Hevs).
  exists evs. split; [done|]. intros m batch Hin.
  by eapply Forall_forall in Hevs.
Qed.

(** C1: the selection of line 110 gives the mango model for ['mango']
    and the tomato model for ['tomato'], but for ['chili'] it gives the
    tomato model as well: no inference of a chili request runs
    [chili_model], and a chili request that succeeds has run
    [tomato_model]. *)
Theorem chili_request_runs_tomato_model :
  select_model "mango" = mango_model
  ∧ select_model "tomato" = tomato_model
  ∧ select_model "chili" = tomato_model
  ∧ (∀ E f uid w, ∃ evs,
       trace (predict E f "chili" uid w).2 = (trace w ++ evs)%list
       ∧ ∀ m batch, EvInfer m batch ∈ evs → m = tomato_model)
  ∧ (∃ batch, trace (predict E0 leaf "chili" "u1" w0).2 !! 2%nat
              = Some (EvInfer tomato_model batch)).
Proof.
  repeat (split; [reflexivity|]). split.
  - intros E f uid w.
    destruct (predict_inferences E f "chili" uid w) as (evs & Htrace & Hevs).
    exists evs. split; [done|]. intros m batch Hin. by destruct (Hevs m batch Hin).
  - exists sample_batch.
    vm_cast_no_check (eq_refl (Some (EvInfer tomato_model sample_batch))).
Qed.

(** C6: a request that succeeds returns, and stores, the label of
    [class_names[plant_type]] at the arg-max index of the output of
    the selected model on the preprocessed image, and as probability
    the entry of that output at that index, as the model gave it; the
    entry is a largest one of the output. *)
Theorem predict_label_and_probability E f plant_type user_id w res w' :
  predict E f plant_type user_id w = (inr res, w') →
  ∃ names content img out k disease p stored,
    class_names !! plant_type = Some names
    ∧ load_img E content (256, 256)%nat = inr img
    ∧ forward E (select_model plant_type) (div_255 (img_to_array img)) = inr out
    ∧ argmax out = Some k
    ∧ names !! k = Some disease
    ∧ out !! k = Some p
    ∧ (∀ j x, out !! j = Some x → (x <= p)%Q)
    ∧ res !! "disease" = Some (VStr disease)
    ∧ res !! "probability" = Some (VFloat p)
    ∧ predictions w' !! uuid4_at E (S (uuid_calls w)) = Some stored
    ∧ stored !! "disease" = Some (VStr disease)
    ∧ stored !! "probability" = Some (VFloat p).
Proof.
  intros Hok. apply predict_ok in Hok
    as (names & content & img & out & k & disease & p & logs & Hok).
  cbv zeta in Hok.
  destruct Hok as (Hnames & _ & _ & Himg & Hout & Hk & Hdis & Hp & _ & _ & -> & _ & Hstore & _).
  eexists names, content, img, out, k, disease, p, _.
  repeat (split; [done|]).
  split.
  { intros j x Hj. destruct (argmax_spec out k Hk) as (p' & Hp' & Hmax).
    assert (p' = p) as -> by congruence. by eapply Hmax. }
  split; [done|]. split; [done|].
  split; [by rewrite Hstore, lookup_insert_eq|]. done.
Qed.

(** C8: a request that succeeds first writes the whole record, with
    [treatment] null, under the document id it has just drawn from
    [uuid4]; its only other write to the store is the update of that
    document with the single field [treatment].  In the stored
    document every other field is as first written, and no other
    document of the store has changed. *)
Theorem predict_store_writes E f plant_type user_id w res w' :
  predict E f plant_type user_id w = (inr res, w') →
  ∃ disease p advice pre mid stored,
    let id := uuid4_at E (S (uuid_calls w)) in
    let image_url := public_url E (uuid4_at E (uuid_calls w) +:+ "_" +:+ filename f) in
    let rec0 := prediction_result user_id plant_type disease p image_url
                                  (strftime_now E) in
    trace w' = (trace w ++ pre ++ [EvSet id rec0] ++ mid
                        ++ [EvUpdate id {["treatment" := VStr advice]}])%list
    ∧ Forall (fun ev => is_store_write ev = false) (pre ++ mid)
    ∧ dom rec0 = list_to_set ["user_id"; "plant_type"; "disease"; "probability";
                              "image_url"; "treatment"; "scanned_data"]
    ∧ rec0 !! "treatment" = Some VNull
    ∧ rec0 !! "user_id" = Some (VStr user_id)
    ∧ rec0 !! "plant_type" = Some (VStr plant_type)
    ∧ predictions w' !! id = Some stored
    ∧ stored !! "treatment" = Some (VStr advice)
    ∧ (∀ k, k ≠ "treatment" → stored !! k = rec0 !! k)
    ∧ (∀ id', id' ≠ id → predictions w' !! id' = predictions w !! id').
Proof.
  intros Hok. apply predict_ok in Hok
    as (names & content & img & out & k & disease & p & logs & Hok).
  cbv zeta in Hok.
  destruct Hok as (_ & _ & _ & _ & _ & _ & _ & _ & _ & _ & _ & _ & Hstore & _ & Htrace & Hlogs).
  eexists disease, p, _, [_; _; _], (_ :: logs), _. cbv zeta.
  split; [exact Htrace|].
  split.
  { repeat (constructor; [reflexivity|]).
    apply Forall_forall. intros ev [msg ->]%Hlogs. reflexivity. }
  split; [reflexivity|].
  repeat (split; [reflexivity|]).
  split; [by rewrite Hstore, lookup_insert_eq|].
  split; [reflexivity|].
  split.
  - intros key Hkey. rewrite lookup_union_r; [done|]. by apply lookup_singleton_ne.
  - intros id' Hid'. rewrite Hstore. by rewrite !lookup_insert_ne.
Qed.

(** ** The preprocessing of the image *)






(** C9: a chili request runs the tomato model, whose output has the 10
    entries of the tomato labels, and looks the arg-max index up in
    the 4 chili labels.  For every image on which that index is 4 or
    more (it can be up to 9) the lookup raises, and the request ends
    as a 500 error with nothing stored. *)
Theorem chili_label_lookup_out_of_range E f user_id w content img out k :
  let blob := uuid4_at E (uuid_calls w) +:+ "_" +:+ filename f in
  let url := public_url E blob in
  let batch := expand_dims (div_255 (img_to_array img)) in
  let detail := "Error processing the image: list index out of range" in
  upload_err E blob (file f) = None →
  requests_get E (<[blob := file f]> (bucket w)) url = inr content →
  load_img E content (256, 256)%nat = inr img →
  forward E tomato_model (div_255 (img_to_array img)) = inr out →
  length out = 10%nat →
  argmax out = Some k →
  (4 ≤ k)%nat →
  select_model "chili" = tomato_model
  ∧ length <$> class_names !! "tomato" = Some 10%nat
  ∧ length <$> class_names !! "chili" = Some 4%nat
  ∧ (k < 10)%nat
  ∧ ∃ w', predict E f "chili" user_id w = (inl (HTTPException 500 detail), w')
          ∧ status_of (predict E f "chili" user_id w).1 = 500%Z
          ∧ predictions w' = predictions w
          ∧ trace w' = (trace w ++ [EvUpload blob (file f); EvFetch url;
                                    EvInfer tomato_model batch; EvLog detail])%list.
Proof.
  intros blob url batch detail Hup Hfetch Himg Hout Hlen Hk Hge.
  repeat (split; [reflexivity|]).
  split.
  { destruct (argmax_spec out k Hk) as (p & Hp & _).
    apply lookup_lt_Some in Hp. lia. }
  set (w1 := add_events [EvInfer tomato_model batch]
               (add_events [EvFetch url]
                  (set_bucket (<[blob := file f]> (bucket w))
                     (add_events [EvUpload blob (file f)]
                        (set_uuid_calls (S (uuid_calls w)) w))))).
  assert (predict E f "chili" user_id w
          = (inl (HTTPException 500 detail), add_events [EvLog detail] w1)) as Hrun.
  { unfold predict.
    replace (dict_contains "chili" class_names) with true by reflexivity.
    replace (select_model "chili") with tomato_model by reflexivity.
    cbn [negb]. unfold try_except.
    rewrite run_bind, uuid4_run. cbv beta iota.
    rewrite run_bind, upload_from_file_run. fold blob. rewrite Hup.
    rewrite run_bind, requests_get_content_run. simpl bucket. fold url. rewrite Hfetch.
    rewrite run_bind, Himg. simpl or_raise. unfold ret at 1.
    rewrite run_bind, model_predict_run, Hout.
    rewrite run_bind, np_argmax_run, Hk.
    rewrite run_bind. unfold dict_getitem at 1.
    replace (class_names !! "chili")
      with (Some ["Bacterial_spot"; "Healthy"; "Late_blight"; "Leaf_Mold"]) by reflexivity.
    unfold ret at 1. rewrite run_bind. unfold list_getitem at 1.
    rewrite (lookup_ge_None_2 _ k) by (simpl; lia).
    unfold raise at 1. rewrite handler_500. reflexivity. }
  exists (add_events [EvLog detail] w1). rewrite Hrun.
  split; [done|]. split; [done|]. split; [done|].
  simpl. by rewrite <- !(assoc_L (++)).
Qed.

(** ** The handlers of [/scanned_data/{user_id}] *)

Lemma foldl_with_id (acc : list doc) (docs : list (string * doc)) :
  foldl (fun results d => (results ++ [with_id d])%list) acc docs
  = (acc ++ map with_id docs)%list.
Proof.
  revert acc. induction docs as [|d docs IH]; intros acc; simpl.
  - by rewrite app_nil_r.
  - rewrite IH. by rewrite <- (assoc_L (++)).
Qed.

(** C2: for a user with no stored record, [get_prediction] answers
    with status 500, not 404: the [HTTPException] with status 404 is
    raised inside the [try] block and caught by its
    [except Exception], which turns it into the 500 error. *)
Theorem get_prediction_no_records E user_id w :
  records_of user_id (predictions w) = ∅ →
  status_of (get_prediction E user_id w).1 = 500%Z
  ∧ (stream_err E user_id = None →
     (get_prediction E user_id w).1 =
     inl (HTTPException 500
            ("Error fetching predictions: "
             +:+ str_http E 404 "No prediction data found for this user ID."))).
Proof.
  intros Hnone. unfold get_prediction, try_except.
  rewrite run_bind, where_user_id_stream_run.
  destruct (stream_err E user_id) as [msg|]; [by split|].
  rewrite Hnone, map_to_list_empty. simpl. done.
Qed.

Lemma get_prediction_no_records_witness :
  records_of "u9" (predictions w3) = ∅
  ∧ status_of (get_prediction E0 "u9" w3).1 = 500%Z.
Proof.
  split; [vm_cast_no_check (eq_refl (∅ : gmap string doc))|].
  apply (get_prediction_no_records E0 "u9" w3).
  vm_cast_no_check (eq_refl (∅ : gmap string doc)).
Defined.

(** The records of a user who has some are returned, each with its id. *)
Lemma get_prediction_records E user_id w :
  stream_err E user_id = None →
  records_of user_id (predictions w) ≠ ∅ →
  get_prediction E user_id w
  = (inr (map with_id (map_to_list (records_of user_id (predictions w)))), w).
Proof.
  intros Hstream Hsome. unfold get_prediction, try_except.
  rewrite run_bind, where_user_id_stream_run, Hstream. cbv beta iota.
  rewrite foldl_with_id. simpl.
  destruct (map_to_list _) as [|d docs] eqn:Hdocs; [|done].
  by apply map_to_list_empty_iff in Hdocs.
Qed.

(** [get_prediction] never answers with status 404. *)
Lemma get_prediction_never_404 E user_id w :
  status_of (get_prediction E user_id w).1 ≠ 404%Z.
Proof.
  unfold get_prediction, try_except.
  rewrite run_bind.
  destruct (where_user_id_stream E user_id w) as [[e|docs] w1]; [done|].
  by destruct (foldl _ _ _).
Qed.

Section DeleteLoop.
Context (E : env).

(** The loop of [delete_prediction] when every delete goes through. *)
Lemma delete_loop_run (docs : list (string * doc)) (n : nat) (w : world) :
  Forall (fun r => delete_err E r.1 = None) docs →
  delete_loop E docs n w
  = (inr (n + length docs)%nat,
     set_predictions (foldl (fun p r => delete r.1 p) (predictions w) docs)
                     (add_events (map (fun r => EvDelete r.1) docs) w)).
Proof.
  intros Hdocs. revert n w.
  induction Hdocs as [|d docs Hd _ IH]; intros n w.
  - destruct w. unfold set_predictions, add_events. simpl.
    by rewrite app_nil_r, Nat.add_0_r.
  - simpl delete_loop. rewrite run_bind, document_delete_run, Hd.
    rewrite IH. f_equal; [f_equal; simpl; lia|].
    unfold set_predictions, add_events. simpl.
    by rewrite <- (assoc_L (++)).
Qed.

Lemma lookup_foldl_delete (docs : list (string * doc)) (p : gmap string doc) id :
  foldl (fun p r => delete r.1 p) p docs !! id
  = if decide (id ∈ docs.*1) then None else p !! id.
Proof.
  revert p. induction docs as [|d docs IH]; intros p.
  - done.
  - rewrite fmap_cons. simpl foldl. rewrite IH.
    destruct (decide (id = d.1)) as [->|Hne].
    + rewrite lookup_delete_eq. rewrite (decide_True (P := d.1 ∈ d.1 :: _)) by left.
      by case_decide.
    + rewrite lookup_delete_ne by done.
      destruct (decide (id ∈ docs.*1)) as [Hin|Hnin].
      * by rewrite decide_True by (by right).
      * rewrite decide_False; [done|]. by intros [?|?]%elem_of_cons.
Qed.

(** Deleting every streamed document leaves the documents of the
    other users. *)
Lemma foldl_delete_records user_id (p : gmap string doc) :
  foldl (fun p r => delete r.1 p) p (map_to_list (records_of user_id p))
  = p ∖ records_of user_id p.
Proof.
  apply map_eq. intros id. rewrite lookup_foldl_delete, lookup_difference.
  destruct (records_of user_id p !! id) as [d|] eqn:Hid.
  - rewrite decide_True; [done|].
    apply list_elem_of_fmap. exists (id, d). split; [done|].
    by apply elem_of_map_to_list.
  - rewrite decide_False; [done|].
    intros [[id' d] [-> Hin]]%list_elem_of_fmap.
    apply elem_of_map_to_list in Hin. simpl in Hid. congruence.
Qed.

Lemma records_of_difference user_id (p : gmap string doc) :
  records_of user_id (p ∖ records_of user_id p) = ∅.
Proof.
  apply map_empty_filter_2. intros id d Hd. simpl.
  apply lookup_difference_Some in Hd as [Hp Hnone].
  intros Huser. unfold records_of in Hnone.
  apply map_lookup_filter_None in Hnone as [Hnone|Hnone]; [congruence|].
  by eapply Hnone.
Qed.
End DeleteLoop.

(** C3: for a user with no stored record, [delete_prediction] answers
    with status 500, not 404: the [HTTPException] with status 404 of
    line 207 is raised inside the [try] block and caught by its
    [except Exception].  Nothing is deleted. *)
Theorem delete_prediction_no_records E user_id w :
  records_of user_id (predictions w) = ∅ →
  status_of (delete_prediction E user_id w).1 = 500%Z
  ∧ predictions (delete_prediction E user_id w).2 = predictions w
  ∧ (stream_err E user_id = None →
     (delete_prediction E user_id w).1 =
     inl (HTTPException 500
            ("Error deleting predictions: "
             +:+ str_http E 404 "No prediction data found for this user ID."))).
Proof.
  intros Hnone. unfold delete_prediction, try_except.
  rewrite run_bind, where_user_id_stream_run.
  destruct (stream_err E user_id) as [msg|]; [by split|].
  rewrite Hnone, map_to_list_empty. simpl. done.
Qed.

Lemma delete_prediction_no_records_witness :
  records_of "u9" (predictions w3) = ∅
  ∧ status_of (delete_prediction E0 "u9" w3).1 = 500%Z.
Proof.
  split; [vm_cast_no_check (eq_refl (∅ : gmap string doc))|].
  apply (delete_prediction_no_records E0 "u9" w3).
  vm_cast_no_check (eq_refl (∅ : gmap string doc)).
Defined.

(** For a user with N > 0 stored records, with a store that works,
    [delete_prediction] deletes those N documents and no other, and
    answers with the message that counts them. *)
Lemma delete_prediction_deletes_all E user_id w :
  let records := records_of user_id (predictions w) in
  stream_err E user_id = None →
  (∀ id, is_Some (records !! id) → delete_err E id = None) →
  records ≠ ∅ →
  ∃ w',
    delete_prediction E user_id w
    = (inr {[ "message" :=
                VStr ("Deleted " +:+ pretty (size records)
                      +:+ " prediction(s) successfully.") ]}, w')
    ∧ predictions w' = predictions w ∖ records
    ∧ records_of user_id (predictions w') = ∅
    ∧ trace w' = (trace w ++ map (fun r => EvDelete r.1) (map_to_list records))%list.
Proof.
  intros records Hstream Hdelete Hsome.
  unfold delete_prediction, try_except.
  rewrite run_bind, where_user_id_stream_run, Hstream. fold records.
  rewrite run_bind, delete_loop_run.
  2:{ apply Forall_forall. intros [id d] Hin%elem_of_map_to_list.
      apply Hdelete. by eexists. }
  rewrite length_map_to_list. simpl.
  rewrite bool_decide_eq_false_2 by (by apply map_size_non_empty_iff).
  eexists. split; [reflexivity|]. simpl.
  unfold records. rewrite foldl_delete_records.
  split; [done|]. split; [apply records_of_difference|done].
Qed.

(** ** The claims on the sample deployment *)


Lemma mango_request_run :
  predict E0 leaf "mango" "u1" w0 = (inr mango_response, w1).
Proof. vm_cast_no_check (eq_refl (inr (A := exn) mango_response, w1)). Qed.

Lemma predict_label_and_probability_witness :
  predict E0 leaf "mango" "u1" w0 = (inr mango_response, w1)
  ∧ ∃ names content img out k disease p stored,
      class_names !! "mango" = Some names
      ∧ load_img E0 content (256, 256)%nat = inr img
      ∧ forward E0 (select_model "mango") (div_255 (img_to_array img)) = inr out
      ∧ argmax out = Some k
      ∧ names !! k = Some disease
      ∧ out !! k = Some p
      ∧ (∀ j x, out !! j = Some x → (x <= p)%Q)
      ∧ mango_response !! "disease" = Some (VStr disease)
      ∧ mango_response !! "probability" = Some (VFloat p)
      ∧ predictions w1 !! uuid4_at E0 (S (uuid_calls w0)) = Some stored
      ∧ stored !! "disease" = Some (VStr disease)
      ∧ stored !! "probability" = Some (VFloat p).
Proof.
  split; [exact mango_request_run|].
  apply (predict_label_and_probability E0 leaf "mango" "u1" w0 mango_response w1).
  exact mango_request_run.
Defined.

Lemma predict_store_writes_witness :
  predict E0 leaf "mango" "u1" w0 = (inr mango_response, w1)
  ∧ ∃ disease p advice pre mid stored,
      let id := uuid4_at E0 (S (uuid_calls w0)) in
      let image_url :=
        public_url E0 (uuid4_at E0 (uuid_calls w0) +:+ "_" +:+ filename leaf) in
      let rec0 := prediction_result "u1" "mango" disease p image_url
                                    (strftime_now E0) in
      trace w1 = (trace w0 ++ pre ++ [EvSet id rec0] ++ mid
                          ++ [EvUpdate id {["treatment" := VStr advice]}])%list
      ∧ Forall (fun ev => is_store_write ev = false) (pre ++ mid)
      ∧ dom rec0 = list_to_set ["user_id"; "plant_type"; "disease"; "probability";
                                "image_url"; "treatment"; "scanned_data"]
      ∧ rec0 !! "treatment" = Some VNull
      ∧ rec0 !! "user_id" = Some (VStr "u1")
      ∧ rec0 !! "plant_type" = Some (VStr "mango")
      ∧ predictions w1 !! id = Some stored
      ∧ stored !! "treatment" = Some (VStr advice)
      ∧ (∀ k, k ≠ "treatment" → stored !! k = rec0 !! k)
      ∧ (∀ id', id' ≠ id → predictions w1 !! id' = predictions w0 !! id').
Proof.
  split; [exact mango_request_run|].
  apply (predict_store_writes E0 leaf "mango" "u1" w0 mango_response w1).
  exact mango_request_run.
Defined.


Lemma chili_label_lookup_out_of_range_witness :
  argmax tomato_out = Some 7%nat
  ∧ status_of (predict E0 leaf "chili" "u1" w0).1 = 500%Z
  ∧ predictions (predict E0 leaf "chili" "u1" w0).2 = predictions w0.
Proof.
  split; [reflexivity|].
  destruct (chili_label_lookup_out_of_range E0 leaf "u1" w0
              [Byte.x01; Byte.x02] (rgb_image (256, 256)%nat) tomato_out 7)
    as (_ & _ & _ & _ & w' & Hrun & Hstatus & Hstore & _).
  - reflexivity.
  - vm_cast_no_check (eq_refl (inr (A := string) [Byte.x01; Byte.x02])).
  - reflexivity.
  - reflexivity.
  - reflexivity.
  - reflexivity.
  - lia.
  - split; [exact Hstatus|]. rewrite Hrun. exact Hstore.
Defined.

(** * More of the service *)

(** ** Listing *)

Lemma has_user_id_true user_id (d : doc) :
  has_user_id user_id d = true ↔ d !! "user_id" = Some (VStr user_id).
Proof.
  unfold has_user_id. destruct (d !! "user_id") as [[|s|q]|].
  - split; discriminate.
  - rewrite bool_decide_eq_true. split; [by intros ->|by intros [= ->]].
  - split; discriminate.
  - split; discriminate.
Qed.

Lemma lookup_records_of user_id (p : gmap string doc) id d :
  records_of user_id p !! id = Some d ↔
  p !! id = Some d ∧ d !! "user_id" = Some (VStr user_id).
Proof.
  unfold records_of. rewrite map_lookup_filter_Some. simpl.
  by rewrite has_user_id_true.
Qed.

Lemma elem_of_with_id_rows (m : gmap string doc) (row : doc) :
  row ∈ map with_id (map_to_list m) ↔
  ∃ id d, m !! id = Some d ∧ row = <["id" := VStr id]> d.
Proof.
  rewrite list_elem_of_In, in_map_iff. split.
  - intros [[id d] [<- Hin]]. exists id, d.
    rewrite <- list_elem_of_In in Hin. by apply elem_of_map_to_list in Hin.
  - intros (id & d & Hd & ->). exists (id, d). split; [done|].
    rewrite <- list_elem_of_In. by apply elem_of_map_to_list.
Qed.

(** X1: [get_scanned_data] on a store that works returns one row for
    each stored document, the document with its id under ['id'], and
    changes nothing; an empty collection gives an empty list, not an
    error.  When the stream raises, the exception leaves the handler
    as it is: nothing is logged and nothing is turned into an
    [HTTPException]. *)
Theorem get_scanned_data_rows w :
  (∃ rows,
     get_scanned_data None w = (inr rows, w)
     ∧ length rows = size (predictions w)
     ∧ (∀ row, row ∈ rows ↔
               ∃ id d, predictions w !! id = Some d ∧ row = <["id" := VStr id]> d)
     ∧ (predictions w = ∅ → rows = []))
  ∧ ∀ msg, get_scanned_data (Some msg) w = (inl (PyError "GoogleAPICallError" msg), w).
Proof.
  split; [|done].
  exists (map with_id (map_to_list (predictions w))).
  split; [|split; [|split]].
  - unfold get_scanned_data, collection_stream. run_binds.
    by rewrite foldl_with_id.
  - by rewrite length_map, length_map_to_list.
  - apply elem_of_with_id_rows.
  - intros ->. by rewrite map_to_list_empty.
Qed.

(** X2: for a user with stored records and a store that works,
    [get_prediction] returns exactly the documents whose [user_id] is
    that user's, each with its id under ['id'], and changes nothing:
    no document of another user is in the answer. *)
Theorem get_prediction_rows E user_id w :
  stream_err E user_id = None →
  records_of user_id (predictions w) ≠ ∅ →
  ∃ rows,
    get_prediction E user_id w = (inr rows, w)
    ∧ length rows = size (records_of user_id (predictions w))
    ∧ (∀ row, row ∈ rows ↔
              ∃ id d, predictions w !! id = Some d
                      ∧ d !! "user_id" = Some (VStr user_id)
                      ∧ row = <["id" := VStr id]> d)
    ∧ (∀ row, row ∈ rows → row !! "user_id" = Some (VStr user_id)).
Proof.
  intros Hstream Hsome. eexists. split; [by apply get_prediction_records|].
  split; [by rewrite length_map, length_map_to_list|].
  assert (∀ row, row ∈ map with_id (map_to_list (records_of user_id (predictions w))) ↔
            ∃ id d, predictions w !! id = Some d
                    ∧ d !! "user_id" = Some (VStr user_id)
                    ∧ row = <["id" := VStr id]> d) as Hrows.
  { intros row. rewrite elem_of_with_id_rows. split.
    - intros (id & d & [Hd Hu]%lookup_records_of & ->). by exists id, d.
    - intros (id & d & Hd & Hu & ->). exists id, d. by rewrite lookup_records_of. }
  split; [exact Hrows|].
  intros row (id & d & _ & Hu & ->)%Hrows. by rewrite lookup_insert_ne.
Qed.

Lemma get_prediction_rows_witness :
  ∃ rows, get_prediction E0 "u1" w3 = (inr rows, w3) ∧ length rows = 2%nat.
Proof.
  destruct (get_prediction_rows E0 "u1" w3) as (rows & Hrun & Hlen & _).
  - reflexivity.
  - intros Hempty. apply (f_equal size) in Hempty.
    revert Hempty. vm_compute. discriminate.
  - exists rows. split; [exact Hrun|]. rewrite Hlen.
    vm_cast_no_check (eq_refl 2%nat).
Defined.

(** ** Deleting *)

Section DeleteFrame.
Context (E : env).

(** Whatever the deletes of the loop do, it only removes documents,
    and only among those it was given. *)
Lemma delete_loop_frame (docs : list (string * doc)) (n : nat) (w : world) :
  let w' := (delete_loop E docs n w).2 in
  bucket w' = bucket w
  ∧ uuid_calls w' = uuid_calls w
  ∧ (∀ id, id ∉ docs.*1 → predictions w' !! id = predictions w !! id)
  ∧ (∀ id d, predictions w' !! id = Some d → predictions w !! id = Some d).
Proof.
  revert n w. induction docs as [|r docs IH]; intros n w; [done|].
  simpl delete_loop. rewrite run_bind, document_delete_run.
  destruct (delete_err E r.1) as [msg|]; [done|].
  specialize (IH (n + 1)%nat
    (set_predictions (delete r.1 (predictions w)) (add_events [EvDelete r.1] w))).
  destruct IH as (Hb & Hu & Hout & Hin). simpl in Hb, Hu, Hout, Hin.
  cbv zeta. repeat split.
  - done.
  - done.
  - intros id Hid. rewrite fmap_cons, not_elem_of_cons in Hid. destruct Hid as [Hne Hid].
    rewrite Hout by done. by rewrite lookup_delete_ne.
  - intros id d Hd. apply Hin in Hd. by apply lookup_delete_Some in Hd as [_ Hd].
Qed.
End DeleteFrame.

(** X3: on every path of [delete_prediction], also when the stream or
    one of the deletes raises, the objects of the bucket stay, no
    document is added or changed, and every document that is not one
    of this user's stays in the store. *)
Theorem delete_prediction_frame E user_id w :
  let w' := (delete_prediction E user_id w).2 in
  bucket w' = bucket w
  ∧ (∀ id d, predictions w' !! id = Some d → predictions w !! id = Some d)
  ∧ (∀ id d, predictions w !! id = Some d →
             d !! "user_id" ≠ Some (VStr user_id) →
             predictions w' !! id = Some d).
Proof.
  unfold delete_prediction, try_except.
  rewrite run_bind, where_user_id_stream_run.
  destruct (stream_err E user_id) as [msg|]; [done|].
  rewrite run_bind.
  destruct (delete_loop_frame E (map_to_list (records_of user_id (predictions w))) 0 w)
    as (Hb & _ & Hout & Hin).
  assert (∀ id d, predictions w !! id = Some d →
                  d !! "user_id" ≠ Some (VStr user_id) →
                  id ∉ (map_to_list (records_of user_id (predictions w))).*1) as Hother.
  { intros id d Hd Hu [[id' d'] [-> Hin']]%list_elem_of_fmap.
    apply elem_of_map_to_list, lookup_records_of in Hin' as [Hd' Hu'].
    simpl in Hd. congruence. }
  destruct (delete_loop E _ 0 w) as [[e|k] w2]; simpl in Hb, Hout, Hin.
  - simpl. split; [done|]. split; [done|].
    intros id d Hd Hu. rewrite Hout; [done|]. by eapply Hother.
  - case_bool_decide; simpl; (split; [done|]; split; [done|]);
      intros id d Hd Hu; (rewrite Hout; [done|]); by eapply Hother.
Qed.

Lemma records_of_difference_other user_id other (p : gmap string doc) :
  other ≠ user_id →
  records_of other (p ∖ records_of user_id p) = records_of other p.
Proof.
  intros Hne. apply map_eq. intros id. apply option_eq. intros d.
  rewrite !lookup_records_of, lookup_difference_Some. split.
  - by intros [[Hd _] Hu].
  - intros [Hd Hu]. split; [split; [done|]|done].
    destruct (records_of user_id p !! id) as [d'|] eqn:Hd'; [|done].
    apply lookup_records_of in Hd' as [Hd' Hu']. congruence.
Qed.

(** The answer of [get_prediction] only depends on the records of the
    user. *)
Lemma get_prediction_ext E user_id w1 w2 :
  records_of user_id (predictions w1) = records_of user_id (predictions w2) →
  (get_prediction E user_id w1).1 = (get_prediction E user_id w2).1.
Proof.
  intros Heq. unfold get_prediction, try_except.
  rewrite !run_bind, !where_user_id_stream_run.
  destruct (stream_err E user_id) as [msg|]; [done|]. cbv beta iota.
  rewrite Heq. by destruct (foldl _ _ _).
Qed.

(** X4: for a user with N > 0 stored records and a store that works,
    [delete_prediction] answers with the message that counts N, issues
    one delete for each of these records and no other, and leaves in
    the store exactly the documents that are not this user's. *)
Theorem delete_prediction_removes_user_records E user_id w :
  let records := records_of user_id (predictions w) in
  stream_err E user_id = None →
  (∀ id, is_Some (records !! id) → delete_err E id = None) →
  records ≠ ∅ →
  ∃ w' ids,
    delete_prediction E user_id w
    = (inr {[ "message" :=
                VStr ("Deleted " +:+ pretty (size records)
                      +:+ " prediction(s) successfully.") ]}, w')
    ∧ (∀ id d, predictions w' !! id = Some d ↔
               predictions w !! id = Some d ∧ d !! "user_id" ≠ Some (VStr user_id))
    ∧ trace w' = (trace w ++ map EvDelete ids)%list
    ∧ NoDup ids
    ∧ length ids = size records
    ∧ (∀ id, id ∈ ids ↔ is_Some (records !! id)).
Proof.
  intros records Hstream Hdelete Hsome.
  destruct (delete_prediction_deletes_all E user_id w Hstream Hdelete Hsome)
    as (w' & Hrun & Hstore & _ & Htrace).
  exists w', (map_to_list records).*1.
  split; [exact Hrun|]. split; [|split; [|split; [|split]]].
  - intros id d. rewrite Hstore, lookup_difference_Some. fold records. split.
    + intros [Hd Hnone]. split; [done|]. intros Hu.
      assert (records !! id = Some d) as Hrec by (by apply lookup_records_of).
      congruence.
    + intros [Hd Hu]. split; [done|].
      destruct (records !! id) as [d'|] eqn:Hd'; [|done].
      apply lookup_records_of in Hd' as [Hd' Hu']. congruence.
  - rewrite Htrace. fold records. f_equal.
    rewrite <- list_fmap_compose. done.
  - apply NoDup_fst_map_to_list.
  - by rewrite length_fmap, length_map_to_list.
  - intros id. rewrite list_elem_of_fmap. split.
    + intros [[id' d] [-> Hin]]. apply elem_of_map_to_list in Hin. by eexists.
    + intros [d Hd]. exists (id, d). split; [done|]. by apply elem_of_map_to_list.
Qed.

Lemma delete_prediction_removes_user_records_witness :
  ∃ w', (delete_prediction E0 "u1" w3).1
        = inr {[ "message" := VStr "Deleted 2 prediction(s) successfully." ]}
        ∧ w' = (delete_prediction E0 "u1" w3).2
        ∧ size (predictions w') = 1%nat.
Proof.
  destruct (delete_prediction_removes_user_records E0 "u1" w3)
    as (w' & ids & Hrun & _).
  - reflexivity.
  - reflexivity.
  - intros Hempty. apply (f_equal size) in Hempty.
    revert Hempty. vm_compute. discriminate.
  - exists w'. rewrite Hrun. split; [|split; [reflexivity|]].
    + vm_cast_no_check
        (eq_refl (inr (A := exn)
                    ({[ "message" := VStr "Deleted 2 prediction(s) successfully." ]} : doc))).
    + apply (f_equal snd) in Hrun. simpl in Hrun. subst w'.
      vm_cast_no_check (eq_refl 1%nat).
Defined.

Lemma delete_loop_ok_inv E (docs : list (string * doc)) n w k w' :
  delete_loop E docs n w = (inr k, w') →
  Forall (fun r => delete_err E r.1 = None) docs ∧ k = (n + length docs)%nat.
Proof.
  revert n w. induction docs as [|r docs IH]; intros n w.
  - intros [= <- _]. split; [constructor|]. simpl. lia.
  - simpl delete_loop. rewrite run_bind, document_delete_run.
    destruct (delete_err E r.1) as [msg|] eqn:Hr; [discriminate|].
    intros [Hdocs ->]%IH. split; [by constructor|]. simpl. lia.
Qed.

(** A delete request that succeeds found records and deleted each. *)
Lemma delete_prediction_ok_inv E user_id w res w' :
  delete_prediction E user_id w = (inr res, w') →
  stream_err E user_id = None
  ∧ (∀ id, is_Some (records_of user_id (predictions w) !! id) → delete_err E id = None)
  ∧ records_of user_id (predictions w) ≠ ∅.
Proof.
  unfold delete_prediction, try_except.
  rewrite run_bind, where_user_id_stream_run.
  destruct (stream_err E user_id) as [msg|]; [discriminate|].
  rewrite run_bind.
  destruct (delete_loop E _ 0 w) as [[e|k] w2] eqn:Hloop; [discriminate|].
  apply delete_loop_ok_inv in Hloop as [Hdocs ->].
  case_bool_decide as Hzero; [discriminate|]. intros _.
  split; [done|]. split.
  - intros id [d Hd]. apply elem_of_map_to_list in Hd.
    rewrite Forall_forall in Hdocs. exact (Hdocs (id, d) Hd).
  - intros Hnone. rewrite Hnone, map_to_list_empty in Hzero. done.
Qed.

Lemma get_prediction_status_no_records E user_id w :
  records_of user_id (predictions w) = ∅ →
  status_of (get_prediction E user_id w).1 = 500%Z.
Proof.
  intros Hnone. unfold get_prediction, try_except.
  rewrite run_bind, where_user_id_stream_run.
  destruct (stream_err E user_id) as [msg|]; [done|].
  by rewrite Hnone, map_to_list_empty.
Qed.

(** X5: once [delete_prediction] has deleted the records of a user,
    [get_prediction] for that user finds none and answers with status
    500, while for every other user it answers as before the delete. *)
Theorem get_prediction_after_delete E user_id other w res w' :
  delete_prediction E user_id w = (inr res, w') →
  other ≠ user_id →
  records_of user_id (predictions w') = ∅
  ∧ status_of (get_prediction E user_id w').1 = 500%Z
  ∧ (get_prediction E other w').1 = (get_prediction E other w).1.
Proof.
  intros Hrun Hne.
  destruct (delete_prediction_ok_inv E user_id w res w' Hrun) as (Hstream & Hdelete & Hsome).
  destruct (delete_prediction_deletes_all E user_id w Hstream Hdelete Hsome)
    as (w'' & Hrun' & Hstore & Hgone & _).
  rewrite Hrun in Hrun'. injection Hrun' as _ <-.
  split; [done|]. split.
  - by apply get_prediction_status_no_records.
  - apply get_prediction_ext. rewrite Hstore. by apply records_of_difference_other.
Qed.

Lemma get_prediction_after_delete_witness :
  status_of (get_prediction E0 "u1" (delete_prediction E0 "u1" w3).2).1 = 500%Z
  ∧ (get_prediction E0 "u2" (delete_prediction E0 "u1" w3).2).1
    = (get_prediction E0 "u2" w3).1.
Proof.
  destruct (get_prediction_after_delete E0 "u1" "u2" w3
              {[ "message" := VStr "Deleted 2 prediction(s) successfully." ]}
              (delete_prediction E0 "u1" w3).2) as (_ & Hstatus & Hother).
  - vm_cast_no_check
      (eq_refl (inr (A := exn)
                  ({[ "message" := VStr "Deleted 2 prediction(s) successfully." ]} : doc),
                (delete_prediction E0 "u1" w3).2)).
  - discriminate.
  - split; [exact Hstatus|exact Hother].
Defined.

(** ** What [predict] leaves alone *)

Section Keeps.
Context (R : world → world → Prop).
Context (R_refl : ∀ w, R w w) (R_trans : ∀ w1 w2 w3, R w1 w2 → R w2 w3 → R w1 w3).

Lemma keeps_ret {A} (a : A) w : keeps R (ret a) w.
Proof. apply R_refl. Qed.

Lemma keeps_raise {A} e w : keeps R (raise (A := A) e) w.
Proof. apply R_refl. Qed.

Lemma keeps_or_raise {A} cls (r : string + A) w : keeps R (or_raise cls r) w.
Proof. destruct r; apply R_refl. Qed.

Lemma keeps_bind {A B} (m : M A) (f : A → M B) w :
  keeps R m w →
  (∀ a w1, m w = (inr a, w1) → keeps R (f a) w1) →
  keeps R (m ≫= f) w.
Proof.
  unfold keeps. intros Hm Hf. rewrite run_bind.
  destruct (m w) as [[e|a] w1] eqn:Hrun; [done|].
  eapply R_trans; [exact Hm|]. by apply Hf.
Qed.

Lemma keeps_try_except {A} (body : M A) (handler : exn → M A) w :
  keeps R body w →
  (∀ e w1, body w = (inl e, w1) → keeps R (handler e) w1) →
  keeps R (try_except body handler) w.
Proof.
  unfold keeps, try_except. intros Hm Hh.
  destruct (body w) as [[e|a] w1] eqn:Hrun; [|done].
  eapply R_trans; [exact Hm|]. by apply Hh.
Qed.
End Keeps.

Lemma same_but_refl id blob w : same_but id blob w w.
Proof. by repeat split. Qed.

Lemma same_but_trans id blob w1 w2 w3 :
  same_but id blob w1 w2 → same_but id blob w2 w3 → same_but id blob w1 w3.
Proof.
  intros (Hp1 & Hb1 & Hpd1 & Hbd1) (Hp2 & Hb2 & Hpd2 & Hbd2). repeat split.
  - intros id' Hne. by rewrite Hp2, Hp1.
  - intros name Hne. by rewrite Hb2, Hb1.
  - intros id' H. by apply Hpd2, Hpd1.
  - intros name H. by apply Hbd2, Hbd1.
Qed.

Lemma same_but_of_stores id blob w w' :
  bucket w' = bucket w → predictions w' = predictions w → same_but id blob w w'.
Proof. unfold same_but. intros -> ->. by repeat split. Qed.

(** An operation that leaves the bucket and the collection as they are. *)
Lemma same_but_stores {A} id blob (m : M A) w :
  bucket (m w).2 = bucket w → predictions (m w).2 = predictions w →
  keeps (same_but id blob) m w.
Proof. apply same_but_of_stores. Qed.

Section ServiceKeeps.
Context (E : env) (id blob : string).

Lemma keeps_uuid4 w : keeps (same_but id blob) (uuid4 E) w.
Proof. by apply same_but_stores. Qed.

Lemma keeps_upload_from_file data w :
  keeps (same_but id blob) (upload_from_file E blob data) w.
Proof.
  unfold keeps. rewrite upload_from_file_run.
  destruct (upload_err E blob data); [by apply same_but_of_stores|]. simpl.
  repeat split; simpl; try done.
  - intros name Hne. by rewrite lookup_insert_ne.
  - intros name H. destruct (decide (blob = name)) as [->|Hne].
    + by rewrite lookup_insert_eq.
    + by rewrite lookup_insert_ne.
Qed.

Lemma keeps_requests_get_content url w :
  keeps (same_but id blob) (requests_get_content E url) w.
Proof.
  apply same_but_stores; rewrite requests_get_content_run;
    by destruct (requests_get E _ _).
Qed.

Lemma keeps_model_predict m x w :
  keeps (same_but id blob) (model_predict E m (expand_dims x)) w.
Proof.
  apply same_but_stores; rewrite model_predict_run; by destruct (forward E _ _).
Qed.

Lemma keeps_np_argmax a w : keeps (same_but id blob) (np_argmax a) w.
Proof. apply same_but_stores; unfold np_argmax; by destruct (argmax _). Qed.

Lemma keeps_dict_getitem {V} (d : gmap string V) k w :
  keeps (same_but id blob) (dict_getitem d k) w.
Proof. apply same_but_stores; unfold dict_getitem; by destruct (d !! k). Qed.

Lemma keeps_list_getitem {A} (l : list A) i w :
  keeps (same_but id blob) (list_getitem l i) w.
Proof. apply same_but_stores; unfold list_getitem; by destruct (l !! i). Qed.

Lemma keeps_ndarray_getitem {A} (l : list A) i w :
  keeps (same_but id blob) (ndarray_getitem l i) w.
Proof. apply same_but_stores; unfold ndarray_getitem; by destruct (l !! i). Qed.

Lemma keeps_document_set d w : keeps (same_but id blob) (document_set E id d) w.
Proof.
  unfold keeps. rewrite document_set_run.
  destruct (set_err E id); [by apply same_but_of_stores|].
  repeat split; simpl; try done.
  - intros id' Hne. by rewrite lookup_insert_ne.
  - intros id' H. destruct (decide (id = id')) as [->|Hne].
    + by rewrite lookup_insert_eq.
    + by rewrite lookup_insert_ne.
Qed.

Lemma keeps_document_update fields w :
  keeps (same_but id blob) (document_update E id fields) w.
Proof.
  unfold keeps. rewrite document_update_run.
  destruct (update_err E id); [by apply same_but_of_stores|].
  destruct (predictions w !! id) as [d|] eqn:Hd; [|by apply same_but_of_stores].
  repeat split; simpl; try done.
  - intros id' Hne. by rewrite lookup_insert_ne.
  - intros id' H. destruct (decide (id = id')) as [->|Hne].
    + by rewrite lookup_insert_eq.
    + by rewrite lookup_insert_ne.
Qed.

Lemma keeps_generate_treatment disease plant user_id w :
  keeps (same_but id blob) (generate_treatment E disease plant user_id) w.
Proof.
  destruct (generate_treatment_run E disease plant user_id w) as (logs & Hrun & _).
  apply same_but_stores; by rewrite Hrun.
Qed.

Lemma keeps_handler_500 {A} prefix e w :
  keeps (same_but id blob)
        (logging_error (prefix +:+ str E e);;
         raise (A := A) (HTTPException 500 (prefix +:+ str E e))) w.
Proof. by apply same_but_stores. Qed.
End ServiceKeeps.

(** X6: on every path of [predict], also the failing ones, no object
    of the bucket and no document of the store is removed, and none is
    changed but the object the request uploads and the document under
    the id the request draws. *)
Theorem predict_frame E f plant_type user_id w :
  let blob := uuid4_at E (uuid_calls w) +:+ "_" +:+ filename f in
  let id := uuid4_at E (S (uuid_calls w)) in
  let w' := (predict E f plant_type user_id w).2 in
  (∀ id', id' ≠ id → predictions w' !! id' = predictions w !! id')
  ∧ (∀ name, name ≠ blob → bucket w' !! name = bucket w !! name)
  ∧ (∀ id', is_Some (predictions w !! id') → is_Some (predictions w' !! id'))
  ∧ (∀ name, is_Some (bucket w !! name) → is_Some (bucket w' !! name)).
Proof.
  intros blob id.
  change (keeps (same_but id blob) (predict E f plant_type user_id) w).
  pose proof (same_but_refl id blob) as Hrefl.
  pose proof (same_but_trans id blob) as Htrans.
  unfold predict. destruct (negb _); [by apply keeps_raise|].
  apply (keeps_try_except _ Htrans); [|intros; apply keeps_handler_500].
  apply (keeps_bind _ Htrans); [apply keeps_uuid4|]. intros u w1 Hu.
  rewrite uuid4_run in Hu. injection Hu as <- <-.
  apply (keeps_bind _ Htrans); [apply keeps_upload_from_file|]. intros [] w2 Hup.
  rewrite upload_from_file_run in Hup.
  destruct (upload_err E _ _); [discriminate|]. injection Hup as <-.
  apply (keeps_bind _ Htrans); [apply keeps_requests_get_content|]. intros content w3 Hget.
  rewrite requests_get_content_run in Hget.
  destruct (requests_get E _ _); [discriminate|]. injection Hget as _ <-.
  apply (keeps_bind _ Htrans); [by apply keeps_or_raise|]. intros img w4 [_ ->]%or_raise_ok.
  apply (keeps_bind _ Htrans); [apply keeps_model_predict|]. intros preds w5 Hpred.
  rewrite model_predict_run in Hpred.
  destruct (forward E _ _); [discriminate|]. injection Hpred as _ <-.
  apply (keeps_bind _ Htrans); [apply keeps_np_argmax|]. intros k w6 Hk.
  assert (w6 = add_events [EvInfer (select_model plant_type) [div_255 (img_to_array img)]]
                 (add_events [EvFetch (public_url E blob)]
                    (set_bucket (<[blob := file f]> (bucket w))
                       (add_events [EvUpload blob (file f)]
                          (set_uuid_calls (S (uuid_calls w)) w))))) as ->.
  { revert Hk. unfold np_argmax. destruct (argmax _); by intros [= _ <-]. }
  apply (keeps_bind _ Htrans); [apply keeps_dict_getitem|]. intros names w7 Hn.
  assert (w7 = add_events [EvInfer (select_model plant_type) [div_255 (img_to_array img)]]
                 (add_events [EvFetch (public_url E blob)]
                    (set_bucket (<[blob := file f]> (bucket w))
                       (add_events [EvUpload blob (file f)]
                          (set_uuid_calls (S (uuid_calls w)) w))))) as ->.
  { revert Hn. unfold dict_getitem. destruct (class_names !! _); by intros [= _ <-]. }
  apply (keeps_bind _ Htrans); [apply keeps_list_getitem|]. intros disease w8 Hd.
  assert (w8 = add_events [EvInfer (select_model plant_type) [div_255 (img_to_array img)]]
                 (add_events [EvFetch (public_url E blob)]
                    (set_bucket (<[blob := file f]> (bucket w))
                       (add_events [EvUpload blob (file f)]
                          (set_uuid_calls (S (uuid_calls w)) w))))) as ->.
  { revert Hd. unfold list_getitem. destruct (names !! _); by intros [= _ <-]. }
  apply (keeps_bind _ Htrans); [apply keeps_uuid4|]. intros id' w9 Hid.
  rewrite uuid4_run in Hid. injection Hid as <- <-. simpl uuid_calls.
  apply (keeps_bind _ Htrans); [apply keeps_ndarray_getitem|]. intros row w10 _.
  apply (keeps_bind _ Htrans); [apply keeps_ndarray_getitem|]. intros p w11 _.
  apply (keeps_bind _ Htrans); [apply keeps_document_set|]. intros [] w12 _.
  apply (keeps_bind _ Htrans); [apply keeps_generate_treatment|]. intros advice w13 _.
  apply (keeps_bind _ Htrans); [apply keeps_document_update|]. intros [] w14 _.
  by apply keeps_ret.
Qed.

(** ** What [predict] sends to the external API *)

Lemma predict_prompts E f pt uid w :
  emits_only (prompt_of_labels pt) (predict E f pt uid) w.
Proof.
  unfold predict. destruct (negb _); [apply emits_raise|].
  apply emits_try_except; [|intros; by apply emits_handler_500].
  apply emits_bind; [apply emits_uuid4|]. intros u w1 _.
  apply emits_bind; [by apply emits_upload_from_file|]. intros [] w2 _.
  apply emits_bind; [by apply emits_requests_get_content|]. intros content w3 _.
  apply emits_bind; [apply emits_or_raise|]. intros img w4 _.
  apply emits_bind; [by apply emits_model_predict|]. intros preds w5 _.
  apply emits_bind; [apply emits_np_argmax|]. intros k w6 _.
  apply emits_bind; [apply emits_dict_getitem|]. intros names w7 Hnames.
  assert (class_names !! pt = Some names) as Hpt.
  { revert Hnames. unfold dict_getitem. destruct (class_names !! pt); [|discriminate].
    by intros [= ->]. }
  apply emits_bind; [apply emits_list_getitem|]. intros disease w8 Hdisease.
  assert (disease ∈ names) as Hin.
  { revert Hdisease. unfold list_getitem. destruct (names !! k) eqn:Hk; [|discriminate].
    intros [= -> _]. by eapply list_elem_of_lookup_2. }
  apply emits_bind; [apply emits_uuid4|]. intros id w9 _.
  apply emits_bind; [apply emits_ndarray_getitem|]. intros row w10 _.
  apply emits_bind; [apply emits_ndarray_getitem|]. intros p w11 _.
  apply emits_bind; [by apply emits_document_set|]. intros [] w12 _.
  apply emits_bind.
  { apply emits_generate_treatment; [|done]. by exists names, disease. }
  intros advice w13 _.
  apply emits_bind; [by apply emits_document_update|]. intros [] w14 _.
  apply emits_ret.
Qed.

(** X7: whatever the upload, the file name and the user id of a
    request, every prompt [predict] sends to the external API is the
    template of line 152 filled with the requested plant type, which
    is a key of [class_names], and one of the labels listed for it. *)
Theorem predict_prompt_from_labels E f plant_type user_id w :
  ∃ evs,
    trace (predict E f plant_type user_id w).2 = (trace w ++ evs)%list
    ∧ ∀ prompt, EvGenerate prompt ∈ evs →
        ∃ names disease,
          class_names !! plant_type = Some names
          ∧ disease ∈ names
          ∧ prompt = treatment_prompt disease plant_type.
Proof.
  destruct (predict_prompts E f plant_type user_id w) as (evs & Htrace & Hevs).
  exists evs. split; [done|]. intros prompt Hin.
  rewrite Forall_forall in Hevs. exact (Hevs _ Hin).
Qed.

(** ** The answers of the handlers *)

Lemma class_names_keys (plant_type : string) :
  class_names !! plant_type = None ↔ plant_type ∉ ["mango"; "tomato"; "chili"].
Proof.
  unfold class_names. rewrite !lookup_insert, lookup_singleton.
  rewrite !not_elem_of_cons.
  repeat case_decide; subst; split; try done; try (intros (? & ? & ? & _); done).
  intros _. repeat split; try done. apply not_elem_of_nil.
Qed.

(** X9: [get_prediction] answers with status 200 exactly when the
    stream works and the user has a stored record, and with status 500
    in every other case. *)
Theorem get_prediction_statuses E user_id w :
  let s := status_of (get_prediction E user_id w).1 in
  (s = 200%Z ∨ s = 500%Z)
  ∧ (s = 200%Z ↔
     stream_err E user_id = None ∧ records_of user_id (predictions w) ≠ ∅).
Proof.
  unfold get_prediction, try_except.
  rewrite run_bind, where_user_id_stream_run.
  destruct (stream_err E user_id) as [msg|]; simpl.
  { split; [auto|]. split; [discriminate|]. by intros [? _]. }
  rewrite foldl_with_id. simpl.
  destruct (map_to_list (records_of user_id (predictions w))) as [|r docs] eqn:Hdocs; simpl.
  - apply map_to_list_empty_iff in Hdocs.
    split; [auto|]. split; [discriminate|]. by intros [_ ?].
  - split; [auto|]. split; [|done]. intros _. split; [done|].
    intros Hnone. by rewrite Hnone, map_to_list_empty in Hdocs.
Qed.

(** X10: [delete_prediction] answers with status 200 exactly when the
    stream works, the user has a stored record and the delete of each
    of the user's records goes through, and with status 500 in every
    other case. *)
Theorem delete_prediction_statuses E user_id w :
  let s := status_of (delete_prediction E user_id w).1 in
  (s = 200%Z ∨ s = 500%Z)
  ∧ (s = 200%Z ↔
     stream_err E user_id = None
     ∧ records_of user_id (predictions w) ≠ ∅
     ∧ ∀ id, is_Some (records_of user_id (predictions w) !! id) → delete_err E id = None).
Proof.
  cbv zeta. split.
  - unfold delete_prediction, try_except.
    rewrite run_bind.
    destruct (where_user_id_stream E user_id w) as [[e|docs] w1]; [auto|].
    rewrite run_bind.
    destruct (delete_loop E docs 0 w1) as [[e|k] w2]; [auto|].
    case_bool_decide; auto.
  - split.
    + destruct (delete_prediction E user_id w) as [[e|res] w'] eqn:Hrun.
      * destruct e as [s d|cls msg]; simpl; [|discriminate].
        intros ->. exfalso. revert Hrun. unfold delete_prediction, try_except.
        match goal with |- context [let (_, _) := ?b w in _] => destruct (b w) as [[e|a] w1] end;
          [by rewrite handler_500|discriminate].
      * intros _. by destruct (delete_prediction_ok_inv E user_id w res w' Hrun) as (? & ? & ?).
    + intros (Hstream & Hsome & Hdelete).
      destruct (delete_prediction_deletes_all E user_id w Hstream Hdelete Hsome)
        as (w' & -> & _). done.
Qed.

(** ** The stages of [predict] *)

Section PredictStages.
Context (E : env) (f : UploadFile) (plant_type user_id : string) (w : world).

Let blob := uuid4_at E (uuid_calls w) +:+ "_" +:+ filename f.
Let url := public_url E blob.
Let id := uuid4_at E (S (uuid_calls w)).

(** The world once the label is known: the object is in the bucket and
    two ids are drawn. *)
Let classified (img : image) : world :=
  set_uuid_calls (S (S (uuid_calls w)))
    (add_events [EvInfer (select_model plant_type) [div_255 (img_to_array img)]]
       (add_events [EvFetch url]
          (set_bucket (<[blob := file f]> (bucket w))
             (add_events [EvUpload blob (file f)]
                (set_uuid_calls (S (uuid_calls w)) w))))).

(** A request whose image is classified goes on with the two writes
    to the store and the call for advice between them. *)
Lemma predict_run_classified names content img out k disease p :
  class_names !! plant_type = Some names →
  upload_err E blob (file f) = None →
  requests_get E (<[blob := file f]> (bucket w)) url = inr content →
  load_img E content (256, 256)%nat = inr img →
  forward E (select_model plant_type) (div_255 (img_to_array img)) = inr out →
  argmax out = Some k →
  names !! k = Some disease →
  out !! k = Some p →
  predict E f plant_type user_id w =
  try_except
    (let result := prediction_result user_id plant_type disease p url (strftime_now E) in
     document_set E id result;;
     treatment_text ← generate_treatment E disease plant_type user_id;
     document_update E id {[ "treatment" := VStr treatment_text ]};;
     ret (<["treatment" := VStr treatment_text]> result))
    (fun e =>
       logging_error ("Error processing the image: " +:+ str E e);;
       raise (HTTPException 500 ("Error processing the image: " +:+ str E e)))
    (classified img).
Proof.
  intros Hnames Hup Hfetch Himg Hout Hk Hdis Hp.
  unfold predict, dict_contains.
  rewrite bool_decide_eq_true_2 by (by rewrite Hnames).
  cbn [negb]. unfold try_except.
  rewrite run_bind, uuid4_run. cbv beta iota.
  rewrite run_bind, upload_from_file_run. fold blob. rewrite Hup.
  rewrite run_bind, requests_get_content_run. simpl bucket. fold url. rewrite Hfetch.
  rewrite run_bind, Himg. simpl or_raise. unfold ret at 1.
  rewrite run_bind, model_predict_run, Hout.
  rewrite run_bind, np_argmax_run, Hk.
  rewrite run_bind. unfold dict_getitem at 1. rewrite Hnames. unfold ret at 1.
  rewrite run_bind. unfold list_getitem at 1. rewrite Hdis. unfold ret at 1.
  rewrite run_bind, uuid4_run. cbv beta iota.
  rewrite run_bind. unfold ndarray_getitem at 1.
  change ([out] !! 0%nat) with (Some out). unfold ret at 1.
  rewrite run_bind. unfold ndarray_getitem at 1. rewrite Hp. unfold ret at 1.
  reflexivity.
Qed.
End PredictStages.

Lemma argmax_is_Some (l : list Q) : l ≠ [] → is_Some (argmax l).
Proof. destruct l; [done|]. by eexists. Qed.

(** A request for a known plant type ends as a 500 error with the text
    of the exception of the first stage that raises, and succeeds when
    no stage raises. *)
Lemma predict_run_stopped E f plant_type user_id w :
  is_Some (class_names !! plant_type) →
  match stopped_by E f plant_type w with
  | Some e =>
      (predict E f plant_type user_id w).1
      = inl (HTTPException 500 ("Error processing the image: " +:+ str E e))
  | None => ∃ res, (predict E f plant_type user_id w).1 = inr res
  end.
Proof.
  intros [names Hnames]. unfold stopped_by. rewrite Hnames. cbv zeta.
  assert (dict_contains plant_type class_names = true) as Hkey.
  { unfold dict_contains. apply bool_decide_eq_true_2. by rewrite Hnames. }
  destruct (upload_err E _ _) as [msg|] eqn:Hup.
  { unfold predict. rewrite Hkey. cbn [negb]. unfold try_except.
    rewrite run_bind, uuid4_run. cbv beta iota.
    rewrite run_bind, upload_from_file_run, Hup.
    by rewrite handler_500. }
  destruct (requests_get E _ _) as [msg|content] eqn:Hfetch.
  { unfold predict. rewrite Hkey. cbn [negb]. unfold try_except.
    rewrite run_bind, uuid4_run. cbv beta iota.
    rewrite run_bind, upload_from_file_run, Hup.
    rewrite run_bind, requests_get_content_run. simpl bucket. rewrite Hfetch.
    by rewrite handler_500. }
  destruct (load_img E content _) as [msg|img] eqn:Himg.
  { unfold predict. rewrite Hkey. cbn [negb]. unfold try_except.
    rewrite run_bind, uuid4_run. cbv beta iota.
    rewrite run_bind, upload_from_file_run, Hup.
    rewrite run_bind, requests_get_content_run. simpl bucket. rewrite Hfetch.
    rewrite run_bind, Himg. simpl or_raise. unfold raise at 1.
    by rewrite handler_500. }
  destruct (forward E _ _) as [msg|out] eqn:Hout.
  { unfold predict. rewrite Hkey. cbn [negb]. unfold try_except.
    rewrite run_bind, uuid4_run. cbv beta iota.
    rewrite run_bind, upload_from_file_run, Hup.
    rewrite run_bind, requests_get_content_run. simpl bucket. rewrite Hfetch.
    rewrite run_bind, Himg. simpl or_raise. unfold ret at 1.
    rewrite run_bind, model_predict_run, Hout.
    by rewrite handler_500. }
  destruct (argmax out) as [k|] eqn:Hk.
  2:{ unfold predict. rewrite Hkey. cbn [negb]. unfold try_except.
      rewrite run_bind, uuid4_run. cbv beta iota.
      rewrite run_bind, upload_from_file_run, Hup.
      rewrite run_bind, requests_get_content_run. simpl bucket. rewrite Hfetch.
      rewrite run_bind, Himg. simpl or_raise. unfold ret at 1.
      rewrite run_bind, model_predict_run, Hout.
      rewrite run_bind, np_argmax_run, Hk.
      by rewrite handler_500. }
  destruct (names !! k) as [disease|] eqn:Hdis.
  2:{ unfold predict. rewrite Hkey. cbn [negb]. unfold try_except.
      rewrite run_bind, uuid4_run. cbv beta iota.
      rewrite run_bind, upload_from_file_run, Hup.
      rewrite run_bind, requests_get_content_run. simpl bucket. rewrite Hfetch.
      rewrite run_bind, Himg. simpl or_raise. unfold ret at 1.
      rewrite run_bind, model_predict_run, Hout.
      rewrite run_bind, np_argmax_run, Hk.
      rewrite run_bind. unfold dict_getitem at 1. rewrite Hnames. unfold ret at 1.
      rewrite run_bind. unfold list_getitem at 1. rewrite Hdis. unfold raise at 1.
      by rewrite handler_500. }
  destruct (argmax_spec out k Hk) as (p & Hp & _).
  rewrite (predict_run_classified E f plant_type user_id w names content img out k disease p)
    by done.
  unfold try_except. cbv zeta.
  rewrite run_bind, document_set_run.
  destruct (set_err E _) as [msg|] eqn:Hset; [by rewrite handler_500|].
  rewrite run_bind.
  match goal with
  | |- context [generate_treatment E ?d ?pl ?u ?w0] =>
      destruct (generate_treatment_run E d pl u w0) as (logs & -> & _)
  end.
  rewrite run_bind, document_update_run.
  destruct (update_err E _) as [msg|] eqn:Hupd; [by rewrite handler_500|].
  simpl predictions. rewrite lookup_insert_eq. by eexists.
Qed.

(** X8: [predict] answers with status 200, 400 or 500 and no other;
    with 400 exactly when the plant type is not one of the strings
    ['mango'], ['tomato'] and ['chili'], the keys of [class_names];
    with 500 exactly when a stage of the request raises, and the
    detail is then ["Error processing the image: "] followed by the
    text of the exception that stopped the request, the one of the
    first stage that raised. *)
Theorem predict_statuses E f plant_type user_id w :
  let r := (predict E f plant_type user_id w).1 in
  (status_of r = 200%Z ∨ status_of r = 400%Z ∨ status_of r = 500%Z)
  ∧ (status_of r = 400%Z ↔ plant_type ∉ ["mango"; "tomato"; "chili"])
  ∧ (status_of r = 500%Z ↔ is_Some (stopped_by E f plant_type w))
  ∧ (∀ e, stopped_by E f plant_type w = Some e →
          r = inl (HTTPException 500 ("Error processing the image: " +:+ str E e))).
Proof.
  cbv zeta. rewrite <- class_names_keys.
  destruct (class_names !! plant_type) as [names|] eqn:Hnames.
  - pose proof (predict_run_stopped E f plant_type user_id w) as Hrun.
    rewrite Hnames in Hrun. specialize (Hrun (ltac:(by eexists))).
    destruct (stopped_by E f plant_type w) as [e|].
    + rewrite Hrun. simpl. split; [auto|]. split; [split; discriminate|].
      split; [split; [by eexists|done]|]. by intros e' [= <-].
    + destruct Hrun as [res ->]. simpl. split; [auto|]. split; [split; discriminate|].
      split; [split; [discriminate|by intros [? ?]]|]. discriminate.
  - assert (stopped_by E f plant_type w = None) as ->
      by (unfold stopped_by; by rewrite Hnames).
    unfold predict, dict_contains. rewrite Hnames.
    rewrite bool_decide_eq_false_2 by (by intros [? ?]). simpl.
    split; [auto|]. split; [done|].
    split; [split; [discriminate|by intros [? ?]]|]. discriminate.
Qed.

Example stopped_by_chili_sample :
  stopped_by E0 leaf "chili" w0 = Some (PyError "IndexError" "list index out of range").
Proof. vm_cast_no_check (eq_refl (Some (PyError "IndexError" "list index out of range"))). Qed.

(** X11: a request for a known plant type succeeds as soon as the
    upload, the fetch, the decoding, the inference and the two writes
    to the store go through and the output of the model is not empty
    and not longer than the list of labels: the lookups of lines 115
    and 128 are then in range, the advice never fails, and the update
    finds the document that was just written.  The response is what
    is stored under the id of the request. *)
Theorem predict_succeeds E f plant_type user_id w names content img out :
  let blob := uuid4_at E (uuid_calls w) +:+ "_" +:+ filename f in
  let id := uuid4_at E (S (uuid_calls w)) in
  class_names !! plant_type = Some names →
  upload_err E blob (file f) = None →
  requests_get E (<[blob := file f]> (bucket w)) (public_url E blob) = inr content →
  load_img E content (256, 256)%nat = inr img →
  forward E (select_model plant_type) (div_255 (img_to_array img)) = inr out →
  out ≠ [] →
  (length out ≤ length names)%nat →
  set_err E id = None →
  update_err E id = None →
  ∃ res w',
    predict E f plant_type user_id w = (inr res, w')
    ∧ predictions w' !! id = Some res
    ∧ bucket w' !! blob = Some (file f).
Proof.
  intros blob id Hnames Hup Hfetch Himg Hout Hne Hlen Hset Hupd.
  destruct (argmax_is_Some out Hne) as [k Hk].
  destruct (argmax_spec out k Hk) as (p & Hp & _).
  assert (k < length names)%nat as Hlt by (apply lookup_lt_Some in Hp; lia).
  destruct (lookup_lt_is_Some_2 names k Hlt) as [disease Hdis].
  rewrite (predict_run_classified E f plant_type user_id w names content img out k disease p)
    by done.
  unfold try_except. cbv zeta.
  rewrite run_bind, document_set_run. fold id. rewrite Hset.
  rewrite run_bind.
  match goal with
  | |- context [generate_treatment E ?d ?pl ?u ?w0] =>
      destruct (generate_treatment_run E d pl u w0) as (logs & -> & _)
  end.
  rewrite run_bind, document_update_run, Hupd. simpl predictions.
  rewrite lookup_insert_eq. eexists _, _. split; [reflexivity|]. simpl.
  split.
  - rewrite lookup_insert_eq. reflexivity.
  - by rewrite lookup_insert_eq.
Qed.

Lemma predict_succeeds_witness :
  ∃ res w', predict E0 leaf "tomato" "u1" w1 = (inr res, w').
Proof.
  destruct (predict_succeeds E0 leaf "tomato" "u1" w1
              ["Bacterial_spot"; "Early_blight"; "Late_blight"; "Leaf_Mold";
               "Septoria_leaf_spot"; "Spider_mites"; "Target_Spot";
               "Tomato_Yellow_Leaf_Curl_Virus"; "Tomato_mosaic_virus"; "healthy"]
              (file leaf) (rgb_image (256, 256)%nat) tomato_out)
    as (res & w' & Hrun & _).
  - reflexivity.
  - reflexivity.
  - vm_cast_no_check (eq_refl (inr (A := string) (file leaf))).
  - reflexivity.
  - reflexivity.
  - discriminate.
  - simpl. lia.
  - reflexivity.
  - reflexivity.
  - by exists res, w'.
Defined.

(** X12: nothing is rolled back when the last write fails.  If the
    update of line 139 raises, the request answers with status 500 and
    the text of the error, the document it wrote stays in the store
    with [treatment] null, and the uploaded object stays in the
    bucket. *)
Theorem predict_update_fails E f plant_type user_id w names content img out msg :
  let blob := uuid4_at E (uuid_calls w) +:+ "_" +:+ filename f in
  let url := public_url E blob in
  let id := uuid4_at E (S (uuid_calls w)) in
  class_names !! plant_type = Some names →
  upload_err E blob (file f) = None →
  requests_get E (<[blob := file f]> (bucket w)) url = inr content →
  load_img E content (256, 256)%nat = inr img →
  forward E (select_model plant_type) (div_255 (img_to_array img)) = inr out →
  out ≠ [] →
  (length out ≤ length names)%nat →
  set_err E id = None →
  update_err E id = Some msg →
  ∃ w' disease p,
    predict E f plant_type user_id w
    = (inl (HTTPException 500 ("Error processing the image: " +:+ msg)), w')
    ∧ predictions w' !! id
      = Some (prediction_result user_id plant_type disease p url (strftime_now E))
    ∧ prediction_result user_id plant_type disease p url (strftime_now E) !! "treatment"
      = Some VNull
    ∧ bucket w' !! blob = Some (file f).
Proof.
  intros blob url id Hnames Hup Hfetch Himg Hout Hne Hlen Hset Hupd.
  destruct (argmax_is_Some out Hne) as [k Hk].
  destruct (argmax_spec out k Hk) as (p & Hp & _).
  assert (k < length names)%nat as Hlt by (apply lookup_lt_Some in Hp; lia).
  destruct (lookup_lt_is_Some_2 names k Hlt) as [disease Hdis].
  rewrite (predict_run_classified E f plant_type user_id w names content img out k disease p)
    by done.
  unfold try_except. cbv zeta.
  rewrite run_bind, document_set_run. fold id. rewrite Hset.
  rewrite run_bind.
  match goal with
  | |- context [generate_treatment E ?d ?pl ?u ?w0] =>
      destruct (generate_treatment_run E d pl u w0) as (logs & -> & _)
  end.
  rewrite run_bind, document_update_run, Hupd.
  rewrite handler_500. eexists _, disease, p. split; [reflexivity|]. simpl.
  split; [by rewrite lookup_insert_eq|]. split; [reflexivity|].
  by rewrite lookup_insert_eq.
Qed.

Lemma predict_update_fails_witness :
  status_of (predict (with_update_err E0 (fun _ => Some "deadline exceeded"))
                     leaf "tomato" "u1" w1).1 = 500%Z.
Proof.
  destruct (predict_update_fails (with_update_err E0 (fun _ => Some "deadline exceeded"))
              leaf "tomato" "u1" w1
              ["Bacterial_spot"; "Early_blight"; "Late_blight"; "Leaf_Mold";
               "Septoria_leaf_spot"; "Spider_mites"; "Target_Spot";
               "Tomato_Yellow_Leaf_Curl_Virus"; "Tomato_mosaic_virus"; "healthy"]
              (file leaf) (rgb_image (256, 256)%nat) tomato_out "deadline exceeded")
    as (w' & disease & p & Hrun & _).
  - reflexivity.
  - reflexivity.
  - vm_cast_no_check (eq_refl (inr (A := string) (file leaf))).
  - reflexivity.
  - reflexivity.
  - discriminate.
  - simpl. lia.
  - reflexivity.
  - reflexivity.
  - by rewrite Hrun.
Defined.

(** X13: when the upload raises, the request answers with status 500
    and the text of the error, and has done nothing else: no fetch, no
    inference, no write to the store, and the bucket is as before. *)
Theorem predict_upload_fails E f plant_type user_id w msg :
  let blob := uuid4_at E (uuid_calls w) +:+ "_" +:+ filename f in
  let detail := "Error processing the image: " +:+ msg in
  is_Some (class_names !! plant_type) →
  upload_err E blob (file f) = Some msg →
  ∃ w',
    predict E f plant_type user_id w = (inl (HTTPException 500 detail), w')
    ∧ trace w' = (trace w ++ [EvUpload blob (file f); EvLog detail])%list
    ∧ bucket w' = bucket w
    ∧ predictions w' = predictions w.
Proof.
  intros blob detail Hkey Hup.
  unfold predict, dict_contains. rewrite bool_decide_eq_true_2 by done.
  cbn [negb]. unfold try_except.
  rewrite run_bind, uuid4_run. cbv beta iota.
  rewrite run_bind, upload_from_file_run. fold blob. rewrite Hup.
  rewrite handler_500. eexists. split; [reflexivity|]. simpl.
  split; [|done]. by rewrite <- (assoc_L (++)).
Qed.

Lemma predict_upload_fails_witness :
  status_of (predict (with_upload_err E0 (fun _ _ => Some "403 Forbidden"))
                     leaf "mango" "u1" w0).1 = 500%Z.
Proof.
  destruct (predict_upload_fails (with_upload_err E0 (fun _ _ => Some "403 Forbidden"))
              leaf "mango" "u1" w0 "403 Forbidden") as (w' & Hrun & _).
  - by eexists.
  - reflexivity.
  - by rewrite Hrun.
Defined.

(** X14: when the fetched bytes cannot be decoded as an image, the
    request answers with status 500 and the text of the error; no
    inference is run and nothing is stored, but the object that was
    uploaded stays in the bucket. *)
Theorem predict_decode_fails E f plant_type user_id w content msg :
  let blob := uuid4_at E (uuid_calls w) +:+ "_" +:+ filename f in
  let url := public_url E blob in
  let detail := "Error processing the image: " +:+ msg in
  is_Some (class_names !! plant_type) →
  upload_err E blob (file f) = None →
  requests_get E (<[blob := file f]> (bucket w)) url = inr content →
  load_img E content (256, 256)%nat = inl msg →
  ∃ w',
    predict E f plant_type user_id w = (inl (HTTPException 500 detail), w')
    ∧ trace w' = (trace w ++ [EvUpload blob (file f); EvFetch url; EvLog detail])%list
    ∧ bucket w' = <[blob := file f]> (bucket w)
    ∧ predictions w' = predictions w.
Proof.
  intros blob url detail Hkey Hup Hfetch Himg.
  unfold predict, dict_contains. rewrite bool_decide_eq_true_2 by done.
  cbn [negb]. unfold try_except.
  rewrite run_bind, uuid4_run. cbv beta iota.
  rewrite run_bind, upload_from_file_run. fold blob. rewrite Hup.
  rewrite run_bind, requests_get_content_run. simpl bucket. fold url. rewrite Hfetch.
  rewrite run_bind, Himg. simpl or_raise. unfold raise at 1.
  rewrite handler_500. eexists. split; [reflexivity|]. simpl.
  split; [|done]. by rewrite <- !(assoc_L (++)).
Qed.

Lemma predict_decode_fails_witness :
  status_of (predict (with_load_img E0 (fun _ _ => inl "cannot identify image file"))
                     leaf "mango" "u1" w0).1 = 500%Z.
Proof.
  destruct (predict_decode_fails
              (with_load_img E0 (fun _ _ => inl "cannot identify image file"))
              leaf "mango" "u1" w0 (file leaf) "cannot identify image file")
    as (w' & Hrun & _).
  - by eexists.
  - reflexivity.
  - vm_cast_no_check (eq_refl (inr (A := string) (file leaf))).
  - reflexivity.
  - by rewrite Hrun.
Defined.

(** ** A prediction and its record *)

(** X15: after a request that succeeds, the document stored under the
    id of the request is the response itself, with the user id of the
    request and a text as [treatment]; and [get_prediction] for that
    user, on a store that works, answers with rows among which is this
    document with its id. *)
Theorem predict_then_get_prediction E f plant_type user_id w res w' :
  let id := uuid4_at E (S (uuid_calls w)) in
  predict E f plant_type user_id w = (inr res, w') →
  stream_err E user_id = None →
  predictions w' !! id = Some res
  ∧ res !! "user_id" = Some (VStr user_id)
  ∧ (∃ advice, res !! "treatment" = Some (VStr advice))
  ∧ ∃ rows,
      get_prediction E user_id w' = (inr rows, w')
      ∧ <["id" := VStr id]> res ∈ rows.
Proof.
  intros id Hok Hstream. apply predict_ok in Hok
    as (names & content & img & out & k & disease & p & logs & Hok).
  cbv zeta in Hok.
  destruct Hok as (_ & _ & _ & _ & _ & _ & _ & _ & _ & _ & -> & _ & Hstore & _).
  assert (predictions w' !! id
          = Some (<["treatment" :=
                      VStr (advice_text (generate_content E (treatment_prompt disease plant_type)))]>
                    (prediction_result user_id plant_type disease p
                       (public_url E (uuid4_at E (uuid_calls w) +:+ "_" +:+ filename f))
                       (strftime_now E)))) as Hid.
  { rewrite Hstore, lookup_insert_eq. reflexivity. }
  split; [exact Hid|]. split; [reflexivity|]. split; [by eexists|].
  eexists. split.
  - apply get_prediction_records; [done|].
    intros Hnone. apply (f_equal (lookup id)) in Hnone.
    rewrite lookup_empty in Hnone.
    apply eq_None_not_Some in Hnone. apply Hnone.
    eexists. apply lookup_records_of. split; [exact Hid|reflexivity].
  - apply elem_of_with_id_rows. eexists id, _. split; [|reflexivity].
    apply lookup_records_of. split; [exact Hid|reflexivity].
Qed.

Lemma predict_then_get_prediction_witness :
  ∃ rows, get_prediction E0 "u1" w1 = (inr rows, w1)
          ∧ <["id" := VStr "uuid-1"]> mango_response ∈ rows.
Proof.
  destruct (predict_then_get_prediction E0 leaf "mango" "u1" w0 mango_response w1)
    as (_ & _ & _ & rows & Hrun & Hin).
  - exact mango_request_run.
  - reflexivity.
  - exists rows. split; [exact Hrun|exact Hin].
Defined.

(** X16: a failure of the external API does not fail the request.
    When [generate_content] raises, a request that succeeds returns
    and stores ["Error generating treatment suggestion."] as
    [treatment]. *)
Theorem predict_advice_fails E f plant_type user_id w res w' :
  (∀ prompt, ∃ msg, generate_content E prompt = inl msg) →
  predict E f plant_type user_id w = (inr res, w') →
  res !! "treatment" = Some (VStr "Error generating treatment suggestion.")
  ∧ predictions w' !! uuid4_at E (S (uuid_calls w)) = Some res.
Proof.
  intros Hfail Hok. apply predict_ok in Hok
    as (names & content & img & out & k & disease & p & logs & Hok).
  cbv zeta in Hok.
  destruct Hok as (_ & _ & _ & _ & _ & _ & _ & _ & _ & _ & -> & _ & Hstore & _).
  destruct (Hfail (treatment_prompt disease plant_type)) as [msg Hmsg].
  rewrite Hmsg in *. simpl advice_text in *.
  split; [reflexivity|]. rewrite Hstore, lookup_insert_eq. reflexivity.
Qed.

Lemma predict_advice_fails_witness :
  status_of (predict (with_generate_content E0 (fun _ => inl "quota exceeded"))
                     leaf "mango" "u1" w0).1 = 200%Z
  ∧ ∃ res w',
      predict (with_generate_content E0 (fun _ => inl "quota exceeded"))
              leaf "mango" "u1" w0 = (inr res, w')
      ∧ res !! "treatment" = Some (VStr "Error generating treatment suggestion.").
Proof.
  split; [vm_cast_no_check (eq_refl 200%Z)|].
  set (E := with_generate_content E0 (fun _ => inl "quota exceeded")).
  set (res := <["treatment" := VStr "Error generating treatment suggestion."]>
                (prediction_result "u1" "mango" "Cutting Weevil" 0.5
                   (url_prefix +:+ "uuid-0_leaf.jpg") "2024:12:01")).
  assert (predict E leaf "mango" "u1" w0 = (inr res, (predict E leaf "mango" "u1" w0).2))
    as Hrun.
  { vm_cast_no_check (eq_refl (inr (A := exn) res, (predict E leaf "mango" "u1" w0).2)). }
  exists res, (predict E leaf "mango" "u1" w0).2. split; [exact Hrun|].
  apply (predict_advice_fails E leaf "mango" "u1" w0 res (predict E leaf "mango" "u1" w0).2).
  - intros prompt. by exists "quota exceeded".
  - exact Hrun.
Defined.
